(** * Slash-command dispatch and result formatting of the MCP bridge

    A shallow embedding of [mcp_use/agents/slash_commands.py] and
    [mcp_use/agents/prompt_viewer.py], with the properties of the
    command/result pipeline stated over it.

    Modelling conventions.
    - A Python [str] is a Rocq [string]. The model is exact on ASCII text;
      characters beyond ASCII are carried as the UTF-8 bytes of the source
      file (they occur in fixed message prefixes only), and whitespace and
      case folding are the ASCII ones.
    - Dynamically typed values (the decoded JSON documents, the records) are
      the inductive type [pyval]; floating point numbers are not modelled.
    - A call that may raise returns an [outcome], with the class and the
      message of the exception; [try]/[except] blocks are written out as
      matches on it.
    - [json.loads] belongs to the standard library and is a parameter of
      the functions that call it.
    - The mutable attribute [pending_format_requests] is threaded explicitly
      as a [gmap string string]; the registry [commands] is an insertion
      ordered association list, as a Python [dict] is.
    - Logging has no effect on any returned value and is left out. *)

From Stdlib Require Import Ascii ZArith Lia.
From stdpp Require Import base list strings gmap pretty.

Set Warnings "-register-all".
Local Open Scope Z_scope.

(** ** Python string operations *)

Module Str.

(** Quotation mark, newline and a few characters used as separators. *)
Definition dq : string := String "034" "".
Definition nl : string := String "010" "".
Definition c_nl : ascii := "010"%char.
Definition c_slash : ascii := "/"%char.
Definition c_pipe : ascii := "|"%char.
Definition c_dash : ascii := "-"%char.
Definition c_colon : ascii := ":"%char.
Definition c_comma : ascii := ","%char.
Definition c_quote : ascii := "'"%char.

(** [str.isspace] on one ASCII character: TAB, LF, VT, FF, CR, the four
    separators FS GS RS US, and the blank. *)
Definition isspace (c : ascii) : bool :=
  let n := nat_of_ascii c in
  ((9 <=? n)%nat && (n <=? 13)%nat) || ((28 <=? n)%nat && (n <=? 32)%nat).

Definition is_empty (s : string) : bool :=
  match s with EmptyString => true | String _ _ => false end.

(** [bool(s)] *)
Definition truthy (s : string) : bool := negb (is_empty s).

Fixpoint lstrip (s : string) : string :=
  match s with
  | EmptyString => EmptyString
  | String c s' => if isspace c then lstrip s' else s
  end.

Fixpoint rstrip (s : string) : string :=
  match s with
  | EmptyString => EmptyString
  | String c s' =>
      let r := rstrip s' in
      if isspace c && is_empty r then EmptyString else String c r
  end.

(** [s.strip()] *)
Definition strip (s : string) : string := rstrip (lstrip s).

(** [s.startswith(c)] for a one-character prefix. *)
Definition startswith_char (c : ascii) (s : string) : bool :=
  match s with
  | String c' _ => if decide (c' = c) then true else false
  | EmptyString => false
  end.

(** [s.startswith(p)] *)
Fixpoint startswith (p s : string) : bool :=
  match p, s with
  | EmptyString, _ => true
  | String a p', String b s' => if decide (a = b) then startswith p' s' else false
  | String _ _, EmptyString => false
  end.

(** [p in s] for strings. *)
Fixpoint contains (p s : string) : bool :=
  startswith p s ||
  match s with
  | EmptyString => false
  | String _ s' => contains p s'
  end.

(** [c in s] for a one-character string [c]. *)
Fixpoint has_char (c : ascii) (s : string) : bool :=
  match s with
  | EmptyString => false
  | String c' s' => (if decide (c' = c) then true else false) || has_char c s'
  end.

(** [s[1:]] *)
Definition tail (s : string) : string :=
  match s with EmptyString => EmptyString | String _ s' => s' end.

(** [s[:n]] for a non-negative literal [n]. *)
Fixpoint take (n : nat) (s : string) : string :=
  match n, s with
  | O, _ => EmptyString
  | S _, EmptyString => EmptyString
  | S n', String c s' => String c (take n' s')
  end.

(** [s.split()]: the maximal runs of non-whitespace characters. [tok] is the
    run being read, if any. *)
Fixpoint split_go (tok : option string) (s : string) : list string :=
  match s with
  | EmptyString => match tok with Some t => [t] | None => [] end
  | String c s' =>
      if isspace c then
        match tok with
        | Some t => t :: split_go None s'
        | None => split_go None s'
        end
      else split_go (Some (default "" tok +:+ String c "")) s'
  end.

Definition split_ws (s : string) : list string := split_go None s.

(** [s.split(sep)] for a one-character separator: never empty. *)
Fixpoint split_on (sep : ascii) (s : string) : list string :=
  match s with
  | EmptyString => [EmptyString]
  | String c s' =>
      let r := split_on sep s' in
      if decide (c = sep) then EmptyString :: r
      else match r with
           | t :: r' => String c t :: r'
           | [] => [String c EmptyString]
           end
  end.

Definition lower_char (c : ascii) : ascii :=
  let n := nat_of_ascii c in
  if (65 <=? n)%nat && (n <=? 90)%nat then ascii_of_nat (n + 32) else c.

(** [s.lower()] *)
Fixpoint lower (s : string) : string :=
  match s with
  | EmptyString => EmptyString
  | String c s' => String (lower_char c) (lower s')
  end.

(** [sep.join(l)] *)
Fixpoint join (sep : string) (l : list string) : string :=
  match l with
  | [] => ""
  | [x] => x
  | x :: l' => x +:+ sep +:+ join sep l'
  end.

(** [s.replace(c, r)] for a one-character pattern [c]. *)
Fixpoint replace_char (c : ascii) (r : string) (s : string) : string :=
  match s with
  | EmptyString => EmptyString
  | String c' s' =>
      if decide (c' = c) then r +:+ replace_char c r s'
      else String c' (replace_char c r s')
  end.

(** Concatenation of the pieces of an f-string. *)
Definition cat (l : list string) : string := foldr String.app "" l.

End Str.

(** ** Dynamically typed values *)

Module Py.

(** The values that reach the result pipeline: what a JSON document decodes
    to, and the structured payloads [parse_db_results] accepts. A [dict]
    keeps its items in insertion order; its keys are strings. *)
Inductive pyval : Type :=
| PNone
| PBool (b : bool)
| PInt (z : Z)
| PStr (s : string)
| PList (l : list pyval)
| PDict (d : list (string * pyval)).

Inductive exn_class : Type :=
| AttributeError | TypeError | KeyError | ValueError | IndexError
| JSONDecodeError | RecursionError.

Global Instance exn_class_eq_dec : EqDecision exn_class.
Proof. solve_decision. Defined.

(** An exception of class [exn_cls]; [exn_msg] is what [str(e)] gives. *)
Record exn : Type := Exn { exn_cls : exn_class; exn_msg : string }.

Inductive outcome (A : Type) : Type :=
| Returned (a : A)
| Raised (e : exn).
Global Arguments Returned {A} a.
Global Arguments Raised {A} e.

(** Sequencing: [x ← m; k] runs [k] unless [m] raised. *)
Global Instance outcome_ret : MRet outcome := fun _ a => Returned a.
Global Instance outcome_bind : MBind outcome := fun _ _ f m =>
  match m with
  | Returned a => f a
  | Raised e => Raised e
  end.

(** A [for] loop whose body may raise, threading the loop state. *)
Fixpoint for_each {A S} (body : S -> A -> outcome S) (l : list A) (s : S) : outcome S :=
  match l with
  | [] => Returned s
  | a :: l' => s' ← body s a; for_each body l' s'
  end.

(** A list comprehension whose element expression may raise. *)
Fixpoint map_out {A B} (f : A -> outcome B) (l : list A) : outcome (list B) :=
  match l with
  | [] => Returned []
  | a :: l' => b ← f a; bs ← map_out f l'; Returned (b :: bs)
  end.

Definition type_name (v : pyval) : string :=
  match v with
  | PNone => "NoneType"
  | PBool _ => "bool"
  | PInt _ => "int"
  | PStr _ => "str"
  | PList _ => "list"
  | PDict _ => "dict"
  end.

(** [bool(v)] *)
Definition truthy (v : pyval) : bool :=
  match v with
  | PNone => false
  | PBool b => b
  | PInt z => negb (z =? 0)
  | PStr s => Str.truthy s
  | PList l => match l with [] => false | _ => true end
  | PDict d => match d with [] => false | _ => true end
  end.

(** *** Dictionaries with string keys *)

Fixpoint dict_get {V} (k : string) (d : list (string * V)) : option V :=
  match d with
  | [] => None
  | (k', v) :: d' => if decide (k' = k) then Some v else dict_get k d'
  end.

(** [k in d] *)
Definition dict_has {V} (k : string) (d : list (string * V)) : bool :=
  match dict_get k d with Some _ => true | None => false end.

(** [d[k] = v]: an existing key keeps its place, a new one goes last. *)
Fixpoint dict_set {V} (k : string) (v : V) (d : list (string * V)) : list (string * V) :=
  match d with
  | [] => [(k, v)]
  | (k', v') :: d' =>
      if decide (k' = k) then (k', v) :: d' else (k', v') :: dict_set k v d'
  end.

(** [dict(pairs)] *)
Definition dict_of_pairs {V} (pairs : list (string * V)) : list (string * V) :=
  fold_left (fun d kv => dict_set kv.1 kv.2 d) pairs [].

(** *** Operations on values

    Each operation raises what CPython 3.11 raises, with its message. *)

Definition raise {A} (c : exn_class) (msg : list string) : outcome A :=
  Raised (Exn c (Str.cat msg)).

(** [v.get(k, dflt)] *)
Definition py_get (v : pyval) (k : string) (dflt : pyval) : outcome pyval :=
  match v with
  | PDict d => Returned (default dflt (dict_get k d))
  | _ => raise AttributeError ["'"; type_name v; "' object has no attribute 'get'"]
  end.

Definition chars (s : string) : list pyval :=
  map (fun c => PStr (String c "")) (String.list_ascii_of_string s).

(** The items a [for] loop over [v] visits. *)
Definition py_iter (v : pyval) : outcome (list pyval) :=
  match v with
  | PList l => Returned l
  | PStr s => Returned (chars s)
  | PDict d => Returned (map (fun kv => PStr kv.1) d)
  | _ => raise TypeError ["'"; type_name v; "' object is not iterable"]
  end.

(** [len(v)] *)
Definition py_len (v : pyval) : outcome nat :=
  match v with
  | PList l => Returned (length l)
  | PStr s => Returned (String.length s)
  | PDict d => Returned (length d)
  | _ => raise TypeError ["object of type '"; type_name v; "' has no len()"]
  end.

(** [v[0]] *)
Definition py_first (v : pyval) : outcome pyval :=
  match v with
  | PList (x :: _) => Returned x
  | PList [] => raise IndexError ["list index out of range"]
  | PStr (String c _) => Returned (PStr (String c ""))
  | PStr EmptyString => raise IndexError ["string index out of range"]
  | PDict _ => raise KeyError ["0"]
  | _ => raise TypeError ["'"; type_name v; "' object is not subscriptable"]
  end.

(** [v[:n]] *)
Definition py_slice (n : nat) (v : pyval) : outcome pyval :=
  match v with
  | PStr s => Returned (PStr (Str.take n s))
  | PList l => Returned (PList (take n l))
  | PDict _ => raise TypeError ["unhashable type: 'slice'"]
  | _ => raise TypeError ["'"; type_name v; "' object is not subscriptable"]
  end.

(** [v += s] for a string [s]: concatenation on a [str], extension by the
    characters of [s] on a [list]. *)
Definition py_iadd_str (v : pyval) (s : string) : outcome pyval :=
  match v with
  | PStr x => Returned (PStr (x +:+ s))
  | PList l => Returned (PList (l ++ chars s))
  | _ => raise TypeError
           ["unsupported operand type(s) for +=: '"; type_name v; "' and 'str'"]
  end.

(** [hash(v)], as needed to use [v] as a dictionary key. *)
Definition py_hashable (v : pyval) : outcome unit :=
  match v with
  | PList _ | PDict _ => raise TypeError ["unhashable type: '"; type_name v; "'"]
  | _ => Returned tt
  end.

(** [a == b] *)
Fixpoint py_eq (a b : pyval) : bool :=
  match a, b with
  | PNone, PNone => true
  | PBool x, PBool y => Z.b2z x =? Z.b2z y
  | PBool x, PInt y => Z.b2z x =? y
  | PInt x, PBool y => x =? Z.b2z y
  | PInt x, PInt y => x =? y
  | PStr x, PStr y => if decide (x = y) then true else false
  | PList x, PList y =>
      (fix go (x y : list pyval) : bool :=
         match x, y with
         | [], [] => true
         | a' :: x', b' :: y' => py_eq a' b' && go x' y'
         | _, _ => false
         end) x y
  | PDict x, PDict y =>
      (length x =? length y)%nat
      && forallb (fun kv => match dict_get kv.1 y with
                            | Some v' => py_eq kv.2 v'
                            | None => false
                            end) x
  | _, _ => false
  end.

Definition not_ordered {A} (a b : pyval) : outcome A :=
  raise TypeError ["'<' not supported between instances of '"; type_name a;
                   "' and '"; type_name b; "'"].

(** [a < b] *)
Fixpoint py_lt (a b : pyval) : outcome bool :=
  match a, b with
  | PBool x, PBool y => Returned (Z.b2z x <? Z.b2z y)
  | PBool x, PInt y => Returned (Z.b2z x <? y)
  | PInt x, PBool y => Returned (x <? Z.b2z y)
  | PInt x, PInt y => Returned (x <? y)
  | PStr x, PStr y => Returned (String.ltb x y)
  | PList x, PList y =>
      (fix go (x y : list pyval) : outcome bool :=
         match x, y with
         | [], [] => Returned false
         | [], _ :: _ => Returned true
         | _ :: _, [] => Returned false
         | a' :: x', b' :: y' => if py_eq a' b' then go x' y' else py_lt a' b'
         end) x y
  | _, _ => not_ordered a b
  end.

Definition hex_digit (n : nat) : ascii :=
  ascii_of_nat (if (n <? 10)%nat then 48 + n else 87 + n).

Definition repr_char (quote c : ascii) : string :=
  let n := nat_of_ascii c in
  if decide (c = quote) then String "\" (String c "")
  else if decide (c = "\"%char) then "\\"
  else if (n =? 9)%nat then "\t"
  else if (n =? 10)%nat then "\n"
  else if (n =? 13)%nat then "\r"
  else if (n <? 32)%nat || (n =? 127)%nat
       then String "\" (String "x" (String (hex_digit (n / 16)) (String (hex_digit (n mod 16)) "")))
  else String c "".

(** [repr(s)] of a string. *)
Definition repr_str (s : string) : string :=
  let quote := if Str.has_char Str.c_quote s && negb (Str.has_char "034" s)
               then "034"%char else Str.c_quote in
  let fix body (s : string) : string :=
    match s with
    | EmptyString => ""
    | String c s' => repr_char quote c +:+ body s'
    end in
  String quote (body s +:+ String quote "").

(** [repr(v)] *)
Fixpoint py_repr (v : pyval) : string :=
  match v with
  | PNone => "None"
  | PBool true => "True"
  | PBool false => "False"
  | PInt z => pretty z
  | PStr s => repr_str s
  | PList l => Str.cat ["["; Str.join ", " (map py_repr l); "]"]
  | PDict d =>
      Str.cat ["{";
               Str.join ", " (map (fun kv => Str.cat [repr_str kv.1; ": "; py_repr kv.2]) d);
               "}"]
  end.

(** [str(v)], which is also how an f-string renders [{v}]. *)
Definition py_str (v : pyval) : string :=
  match v with
  | PStr s => s
  | _ => py_repr v
  end.

(** [sep.join(v)] *)
Definition py_join (sep : string) (v : pyval) : outcome string :=
  match v with
  | PList l =>
      parts ← map_out (fun ix =>
                 match ix.2 with
                 | PStr s => Returned s
                 | x => raise TypeError ["sequence item "; pretty ix.1;
                                         ": expected str instance, "; type_name x; " found"]
                 end) (zip (seq 0 (length l)) l);
      Returned (Str.join sep parts)
  | PStr s => Returned (Str.join sep (map (fun c => String c "") (String.list_ascii_of_string s)))
  | PDict d => Returned (Str.join sep (map fst d))
  | _ => raise TypeError ["can only join an iterable"]
  end.

Definition json_escape_char (c : ascii) : string :=
  let n := nat_of_ascii c in
  if decide (c = "034"%char) then String "\" Str.dq
  else if decide (c = "\"%char) then "\\"
  else if (n =? 10)%nat then "\n"
  else if (n =? 13)%nat then "\r"
  else if (n =? 9)%nat then "\t"
  else if (n =? 8)%nat then "\b"
  else if (n =? 12)%nat then "\f"
  else if (n <? 32)%nat || (n =? 127)%nat
       then "\u00" +:+ String (hex_digit (n / 16)) (String (hex_digit (n mod 16)) "")
  else String c "".

(** [json.dumps(l)] of a list of strings (ASCII text). *)
Definition json_dumps_strs (l : list string) : string :=
  let fix body (s : string) : string :=
    match s with
    | EmptyString => ""
    | String c s' => json_escape_char c +:+ body s'
    end in
  Str.cat ["["; Str.join ", " (map (fun s => Str.cat [Str.dq; body s; Str.dq]) l); "]"].

(** [sorted(l)] under a comparison that may raise: each item is inserted,
    from the right, into the sorted prefix (kept in reverse), so that equal
    items stay in their order. CPython makes its comparisons in another
    order; both give the stable sorted list when no comparison raises, and
    when one raises the message may name another pair of types. *)
Fixpoint insert_sorted {A} (lt : A -> A -> outcome bool) (x : A) (rs : list A)
  : outcome (list A) :=
  match rs with
  | [] => Returned [x]
  | y :: rs' =>
      b ← lt x y;
      if b : bool then r ← insert_sorted lt x rs'; Returned (y :: r)
      else Returned (x :: rs)
  end.

Definition sorted_by {A} (lt : A -> A -> outcome bool) (l : list A) : outcome (list A) :=
  rs ← for_each (fun rs x => insert_sorted lt x rs) l [];
  Returned (rev rs).

(** [enumerate(l)] *)
Definition enumerate {A} (l : list A) : list (nat * A) :=
  zip (seq 0 (length l)) l.

End Py.

Export Py.

Module PromptViewer.

(** ** prompt_viewer.py: the pipe-table fallback *)

Definition error_patterns : list string :=
  [ "connection failed"; "database error"; "query failed"; "server error";
    "not found"; "timeout"; "failed to connect" ].

(** [[h.strip() for h in line.split('|') if h.strip()]] *)
Definition cells (line : string) : list string :=
  map Str.strip
    (List.filter (fun h => Str.truthy (Str.strip h)) (Str.split_on Str.c_pipe line)).

(** The test that selects the lines of a table:
    ['|' in line and not line.strip().startswith('-')]. *)
Definition is_table_line (line : string) : bool :=
  Str.has_char Str.c_pipe line
  && negb (Str.startswith_char Str.c_dash (Str.strip line)).

(** [dict(zip(headers, values))] *)
Definition row_record (headers values : list string) : pyval :=
  PDict (dict_of_pairs (zip headers (map PStr values))).

(** State of the loop of [_parse_text_results]: [header_line] with the
    [headers] bound together with it, and the [rows] collected so far. *)
Record table_state : Type := TableState {
  header : option (nat * list string);
  rows : list pyval
}.

Definition table_step (st : table_state) (il : nat * string) : table_state :=
  let '(i, line) := il in
  if is_table_line line then
    match header st with
    | None => TableState (Some (i, cells line)) (rows st)
    | Some (_, headers) =>
        let values := cells line in
        if (length values =? length headers)%nat
        then TableState (header st) (rows st ++ [row_record headers values])
        else st
    end
  else st.

Definition _parse_text_results (text : string) : list pyval :=
  let lines := Str.split_on Str.c_nl (Str.strip text) in
  match lines with
  | [] => []
  | first :: _ =>
      if Str.has_char Str.c_pipe first
      then rows (fold_left table_step (enumerate lines) (TableState None []))
      else []
  end.

(** ** prompt_viewer.py: rendering records *)

(** [by_category]: a dictionary from category to the prompts of that
    category, in insertion order. Its keys are compared with [==]. *)
Definition groups : Type := list (pyval * list pyval).

Fixpoint group_add (category prompt : pyval) (by_category : groups) : groups :=
  match by_category with
  | [] => [(category, [prompt])]
  | (c, ps) :: rest =>
      if py_eq c category then (c, ps ++ [prompt]) :: rest
      else (c, ps) :: group_add category prompt rest
  end.

(** One turn of the grouping loop:
    [category = prompt.get('category', 'Uncategorized')], then the
    membership test (which hashes the key) and the [append]. *)
Definition group_step (by_category : groups) (prompt : pyval) : outcome groups :=
  category ← py_get prompt "category" (PStr "Uncategorized");
  _ ← py_hashable category;
  Returned (group_add category prompt by_category).

Definition group_by_category (prompts : list pyval) : outcome groups :=
  for_each group_step prompts [].

(** [<] on the items [(category, category_prompts)] of [by_category]. *)
Definition item_lt (a b : pyval * list pyval) : outcome bool :=
  if py_eq a.1 b.1 then py_lt (PList a.2) (PList b.2) else py_lt a.1 b.1.

(** [sorted(by_category.items())] *)
Definition sorted_items (by_category : groups) : outcome groups :=
  sorted_by item_lt by_category.

(** [sorted(category_prompts, key=lambda p: p.get('name', ''))] *)
Definition sorted_by_name (category_prompts : list pyval) : outcome (list pyval) :=
  keyed ← map_out (fun p => k ← py_get p "name" (PStr ""); Returned (k, p)) category_prompts;
  s ← sorted_by (fun a b : pyval * pyval => py_lt a.1 b.1) keyed;
  Returned (map snd s).

Definition no_prompts_found : string := "No prompts found.".

Definition list_line (prompt : pyval) : outcome string :=
  name ← py_get prompt "name" (PStr "Unnamed");
  desc ← py_get prompt "description" (PStr "No description");
  Returned (Str.cat ["- **"; py_str name; "**: "; py_str desc; Str.nl]).

Definition list_section (output : string) (item : pyval * list pyval) : outcome string :=
  let '(category, category_prompts) := item in
  let output := Str.cat [output; "## "; py_str category; Str.nl; Str.nl] in
  ps ← sorted_by_name category_prompts;
  output ← for_each (fun out prompt => l ← list_line prompt; Returned (out +:+ l)) ps output;
  Returned (output +:+ Str.nl).

Definition format_prompt_list (prompts : pyval) : outcome string :=
  if negb (truthy prompts) then Returned no_prompts_found
  else
    items ← py_iter prompts;
    by_category ← group_by_category items;
    let output := Str.cat ["# Available Prompts"; Str.nl; Str.nl] in
    sorted ← sorted_items by_category;
    for_each list_section sorted output.

Definition metadata_fields : list string :=
  ["created_at"; "updated_at"; "version"; "author"].

Definition format_prompt_detail (prompt : pyval) : outcome string :=
  name ← py_get prompt "name" (PStr "Unnamed Prompt");
  desc ← py_get prompt "description" (PStr "No description");
  dflt ← py_get prompt "prompt" (PStr "No content");
  content ← py_get prompt "content" dflt;
  category ← py_get prompt "category" (PStr "Uncategorized");
  tags ← py_get prompt "tags" (PList []);
  let output := Str.cat ["# "; py_str name; Str.nl; Str.nl] in
  let output := Str.cat [output; "**Category:** "; py_str category; Str.nl] in
  let output := Str.cat [output; "**Description:** "; py_str desc; Str.nl] in
  output ←
    (if truthy tags then
       match tags with
       | PStr s => Returned (Str.cat [output; "**Tags:** "; s; Str.nl])
       | _ => j ← py_join ", " tags;
              Returned (Str.cat [output; "**Tags:** "; j; Str.nl])
       end
     else Returned output);
  let output := Str.cat [output; Str.nl; "## Content"; Str.nl; Str.nl; "```"; Str.nl;
                         py_str content; Str.nl; "```"; Str.nl] in
  let fields := match prompt with PDict d => d | _ => [] end in
  let metadata_output :=
    omap (fun field => v ← dict_get field fields;
                       Some (Str.cat [field; ": "; py_str v])) metadata_fields in
  Returned
    (match metadata_output with
     | [] => output
     | _ => Str.cat [output; Str.nl; "## Metadata"; Str.nl; Str.nl;
                     Str.join Str.nl metadata_output]
     end).

(** The fixed text the dashboard opens with, up to the table header. *)
Definition dashboard_intro : string :=
  Str.cat [
    "# Prompt Management Dashboard"; Str.nl; Str.nl;
    "This view shows all prompts from the D1 database. ";
    "You can use the slash commands to manage them:"; Str.nl; Str.nl;
    "- `/prompts list` - List all prompts"; Str.nl;
    "- `/prompts view <name>` - View a specific prompt"; Str.nl;
    "- `/prompts edit <name>` - Edit a prompt"; Str.nl;
    "- `/prompts create <name>` - Create a new prompt"; Str.nl;
    "- `/prompts delete <name>` - Delete a prompt"; Str.nl; Str.nl;
    "---"; Str.nl; Str.nl ].

Definition table_head : string :=
  Str.cat [
    "## All Prompts"; Str.nl; Str.nl;
    "| Category | Name | Description | Actions |"; Str.nl;
    "|----------|------|-------------|----------|"; Str.nl ].

(** One row of the table. *)
Definition table_row (category prompt : pyval) : outcome string :=
  name ← py_get prompt "name" (PStr "Unnamed");
  d ← py_get prompt "description" (PStr "No description");
  desc ← py_slice 50 d;
  d' ← py_get prompt "description" (PStr "");
  n ← py_len d';
  desc ← (if (50 <? n)%nat then py_iadd_str desc "..." else Returned desc);
  let actions := Str.cat ["[View](/prompts view "; py_str name;
                          ") | [Edit](/prompts edit "; py_str name; ")"] in
  Returned (Str.cat ["| "; py_str category; " | "; py_str name; " | ";
                     py_str desc; " | "; actions; " |"; Str.nl]).

Definition table_rows (output : string) (item : pyval * list pyval) : outcome string :=
  let '(category, category_prompts) := item in
  ps ← sorted_by_name category_prompts;
  for_each (fun out prompt => r ← table_row category prompt; Returned (out +:+ r)) ps output.

(** The two aggregate lines of the "Quick Stats" block. *)
Definition quick_stats (total categories : nat) : string :=
  Str.cat [
    Str.nl; "---"; Str.nl; Str.nl;
    "## Quick Stats"; Str.nl; Str.nl;
    "- Total prompts: "; pretty total; Str.nl;
    "- Categories: "; pretty categories; Str.nl ].

(** The line of one group in the "Quick Stats" block. *)
Definition group_line (item : pyval * list pyval) : string :=
  Str.cat ["  - "; py_str item.1; ": "; pretty (length item.2); " prompts"; Str.nl].

Definition create_prompt_editor_view (prompts : pyval) : outcome string :=
  let output := dashboard_intro in
  items ← py_iter prompts;
  by_category ← group_by_category items;
  let output := output +:+ table_head in
  sorted ← sorted_items by_category;
  output ← for_each table_rows sorted output;
  total ← py_len prompts;
  let output := output +:+ quick_stats total (length by_category) in
  sorted ← sorted_items by_category;
  Returned (fold_left (fun out item => out +:+ group_line item) sorted output).

(** ** prompt_viewer.py: [parse_db_results] *)

Section Decoder.

(** [json.loads], the standard library's decoder: it returns the decoded
    value, raises [JSONDecodeError] on text that is not JSON, and may raise
    something else (a [RecursionError] on a deeply nested document). *)
Variable json_loads : string -> outcome pyval.

(** The [try] body of [parse_db_results]. Falling off the end of the
    function, as the text branch does for a decoded document that is neither
    a list nor a dict holding one of the three fields, returns [None]. *)
Definition parse_db_results_body (db_results : pyval) : outcome pyval :=
  match db_results with
  | PStr s =>
      let lower_result := Str.lower s in
      if existsb (fun pattern => Str.contains pattern lower_result) error_patterns
      then Returned (PList [])
      else
        match json_loads s with
        | Returned data =>
            match data with
            | PList _ => Returned data
            | PDict d =>
                match dict_get "results" d, dict_get "rows" d with
                | Some r, _ => Returned r
                | None, Some r => Returned r
                | None, None =>
                    if dict_has "error" d then Returned (PList [])
                    else Returned PNone
                end
            | _ => Returned PNone
            end
        | Raised e =>
            if decide (exn_cls e = JSONDecodeError)
            then Returned (PList (_parse_text_results s))
            else Raised e
        end
  | PList _ => Returned db_results
  | PDict d =>
      if dict_has "error" d then Returned (PList [])
      else
        match dict_get "results" d, dict_get "rows" d with
        | Some r, _ => Returned r
        | None, Some r => Returned r
        | None, None => Returned (PList [db_results])
        end
  | _ => Returned (PList [])
  end.

(** [parse_db_results]: the body under [except Exception: return []]. *)
Definition parse_db_results (db_results : pyval) : pyval :=
  match parse_db_results_body db_results with
  | Returned v => v
  | Raised _ => PList []
  end.

End Decoder.

End PromptViewer.

(** ** slash_commands.py: registry, parser and handlers *)

Module SlashCommandHandler.

(** The bound methods stored in the [handler] field. The class body defines
    [_handle_create_prompt] twice; the later definition is the one bound. *)
Inductive handler_id : Type :=
| h_travel_init | h_prompts | h_servers | h_connect | h_tools | h_help
| h_create_prompt.

Record SlashCommand : Type := {
  name : string;
  description : string;
  handler : handler_id;
  usage : string;
  aliases : list string
}.

(** The two attributes of a [SlashCommandHandler] instance. *)
Record handler_state : Type := {
  commands : list (string * SlashCommand);
  pending_format_requests : gmap string string
}.

Definition set_pending (key value : string) (st : handler_state) : handler_state :=
  {| commands := commands st;
     pending_format_requests := <[key := value]> (pending_format_requests st) |}.

Definition register_command (name description : string) (handler : handler_id)
    (usage : string) (aliases : option (list string)) (st : handler_state)
  : handler_state :=
  let command := {| name := name; description := description; handler := handler;
                    usage := usage; aliases := default [] aliases |} in
  let commands := dict_set name command (commands st) in
  {| commands := fold_left (fun cs alias => dict_set alias command cs)
                           (SlashCommandHandler.aliases command) commands;
     pending_format_requests := pending_format_requests st |}.

Definition _register_default_commands (st : handler_state) : handler_state :=
  let st := register_command "travel" "Initialize the travel assistant"
              h_travel_init "/travel or /t"
              (Some ["t"; "init-travel"; "travel-init"; "start"]) st in
  let st := register_command "go" "Quick start travel assistant (alias for /travel)"
              h_travel_init "/go" (Some ["g"; "init"]) st in
  let st := register_command "prompts" "View and manage D1 database prompts"
              h_prompts
              "/prompts [list|view|dashboard|search|category|edit|create|delete|update]"
              (Some ["p"; "prompt"]) st in
  let st := register_command "servers" "List available MCP servers"
              h_servers "/servers" (Some ["s"; "list-servers"]) st in
  let st := register_command "connect" "Connect to an MCP server"
              h_connect "/connect <server-name>" (Some ["c"]) st in
  let st := register_command "tools" "List available tools"
              h_tools "/tools [server-name]" (Some ["tool"; "list-tools"]) st in
  let st := register_command "help" "Show available slash commands"
              h_help "/help [command]" (Some ["h"; "?"]) st in
  register_command "create-prompt" "Quick create a new prompt"
    h_create_prompt "/create-prompt <name>" (Some ["cp"; "new-prompt"]) st.

(** [__init__] *)
Definition init : handler_state :=
  _register_default_commands {| commands := []; pending_format_requests := ∅ |}.

(** [parse_command]: a triple of optional components; [(None, None, None)]
    is the "not a command" answer. *)
Definition parsed : Type := option string * option string * option (list string).

Definition not_a_command : parsed := (None, None, None).

Definition parse_command (input_text : string) : parsed :=
  if negb (Str.startswith_char Str.c_slash input_text) then not_a_command
  else
    let command_text := Str.strip (Str.tail input_text) in
    let parts := Str.split_ws command_text in
    match parts with
    | [] => not_a_command
    | p0 :: rest =>
        let command_name := Str.lower p0 in
        let subcommand := match rest with p1 :: _ => Some p1 | [] => None end in
        let args := match rest with _ :: (_ :: _) as a => a | _ => [] end in
        (Some command_name, subcommand, Some args)
    end.

Definition is_slash_command (input_text : string) : bool :=
  Str.startswith_char Str.c_slash (Str.strip input_text).

(** *** Handlers

    Every handler ignores its [agent] argument, which is left out. A handler
    returns its text together with the state it leaves. *)

Definition directive_prefix : string := "use_tool_from_server".

(** The directive for an operation of the [d1-database] server:
    [use_tool_from_server d1-database <op> {"query": "<sql>"}]. *)
Definition d1_directive (op sql : string) : string :=
  Str.cat [directive_prefix; " d1-database "; op; " {"; Str.dq; "query"; Str.dq; ": ";
           Str.dq; sql; Str.dq; "}"].

(** [subcommand == s] *)
Definition sub_is (s : string) (subcommand : option string) : bool :=
  if decide (subcommand = Some s) then true else false.

(** [bool(subcommand)] *)
Definition sub_truthy (subcommand : option string) : bool :=
  match subcommand with Some s => Str.truthy s | None => false end.

Definition travel_setup_wizard_text : string :=
  Str.cat [
    "# üßô Travel Assistant Setup Wizard"; Str.nl;
    Str.nl;
    "Welcome! Let's set up your travel assistant. Choose your configuration:"; Str.nl;
    Str.nl;
    "## 1. Quick Setup Options:"; Str.nl;
    Str.nl;
    "**A) Standard Travel Agent** `/travel load travel_agent_standard`"; Str.nl;
    "- Full-service travel planning"; Str.nl;
    "- Flight, hotel, and activity recommendations"; Str.nl;
    "- Budget optimization"; Str.nl;
    Str.nl;
    "**B) Luxury Travel Specialist** `/travel load luxury_travel_agent`"; Str.nl;
    "- High-end travel planning"; Str.nl;
    "- Exclusive experiences"; Str.nl;
    "- Premium service focus"; Str.nl;
    Str.nl;
    "**C) Budget Travel Expert** `/travel load budget_travel_expert`"; Str.nl;
    "- Cost-effective travel solutions"; Str.nl;
    "- Deals and savings focus"; Str.nl;
    "- Value optimization"; Str.nl;
    Str.nl;
    "**D) Adventure Travel Guide** `/travel load adventure_travel_guide`"; Str.nl;
    "- Outdoor and adventure focus"; Str.nl;
    "- Off-the-beaten-path destinations"; Str.nl;
    "- Activity-based planning"; Str.nl;
    Str.nl;
    "## 2. Custom Setup:"; Str.nl;
    "Use `/travel custom [components]` with any combination:"; Str.nl;
    "- `flights` - Flight search and booking assistance"; Str.nl;
    "- `hotels` - Accommodation recommendations"; Str.nl;
    "- `activities` - Tours and experiences"; Str.nl;
    "- `itinerary` - Day-by-day planning"; Str.nl;
    "- `budget` - Cost optimization"; Str.nl;
    "- `safety` - Travel advisories and safety info"; Str.nl;
    Str.nl;
    "Example: `/travel custom flights hotels itinerary`"; Str.nl;
    Str.nl;
    "## 3. Manual Setup:"; Str.nl;
    "- Check available prompts: `/travel check`"; Str.nl;
    "- Load specific prompt: `/travel load <prompt_name>`"; Str.nl;
    "- View prompt first: `/prompts view <prompt_name>`"; Str.nl;
    Str.nl;
    "What would you like to set up?" ].

Definition travel_init_help_text : string :=
  Str.cat [
    "# Travel Assistant Initialization Options"; Str.nl;
    Str.nl;
    "## Quick Start:"; Str.nl;
    "- `/t` or `/travel` - Default initialization (uses prompt-server)"; Str.nl;
    "- `/go` - Alias for quick start"; Str.nl;
    Str.nl;
    "## Initialization Methods:"; Str.nl;
    "- `/travel check` - List available travel prompts"; Str.nl;
    "- `/travel db` - Load from database (fallback)"; Str.nl;
    "- `/travel full` - Load all travel-related prompts"; Str.nl;
    "- `/travel load <name>` - Load specific prompt by name"; Str.nl;
    "- `/travel setup` - Interactive setup wizard"; Str.nl;
    "- `/travel custom [options]` - Custom initialization"; Str.nl;
    Str.nl;
    "## Examples:"; Str.nl;
    "```"; Str.nl;
    "/travel check                    # See what's available"; Str.nl;
    "/travel load travel_agent_pro    # Load specific prompt"; Str.nl;
    "/travel custom flights hotels    # Custom setup"; Str.nl;
    "/travel setup                    # Guided setup"; Str.nl;
    "```"; Str.nl;
    Str.nl;
    "## Troubleshooting:"; Str.nl;
    "- If default `/t` returns unexpected content, try `/travel db`"; Str.nl;
    "- To see all prompts: `/prompts list`"; Str.nl;
    "- To search prompts: `/prompts search travel`"; Str.nl;
    "- To view a prompt: `/prompts view <name>`"; Str.nl;
    Str.nl;
    "## Creating New Prompts:"; Str.nl;
    "```"; Str.nl;
    "/prompts create my_travel_assistant"; Str.nl;
    "/prompts update my_travel_assistant content "; Str.dq; "Your prompt here..."; Str.dq; Str.nl;
    "/prompts update my_travel_assistant category travel"; Str.nl;
    "```" ].

Definition travel_custom_usage_text : string :=
  Str.cat [
    "Please specify components for custom initialization."; Str.nl;
    "            "; Str.nl;
    "Available components:"; Str.nl;
    "- `flights` - Flight search and booking"; Str.nl;
    "- `hotels` - Accommodation services  "; Str.nl;
    "- `activities` - Tours and experiences"; Str.nl;
    "- `itinerary` - Trip planning"; Str.nl;
    "- `budget` - Cost optimization"; Str.nl;
    "- `safety` - Travel safety info"; Str.nl;
    "- `luxury` - Premium services"; Str.nl;
    "- `business` - Business travel"; Str.nl;
    Str.nl;
    "Example: `/travel custom flights hotels itinerary`" ].


Definition component_prompts : list (string * string) :=
  [ ("flights", "flight_booking_assistant");
    ("hotels", "hotel_booking_assistant");
    ("activities", "activity_planning_assistant");
    ("itinerary", "itinerary_builder");
    ("budget", "budget_optimizer");
    ("safety", "travel_safety_advisor");
    ("luxury", "luxury_travel_specialist");
    ("business", "business_travel_assistant") ].

Definition _travel_setup_wizard : string := travel_setup_wizard_text.

Definition _travel_init_help : string := travel_init_help_text.

Definition _travel_custom_init (components : list string) (st : handler_state)
  : string * handler_state :=
  match components with
  | [] => (travel_custom_usage_text, st)
  | _ =>
      let selected_prompts :=
        omap (fun comp => dict_get (Str.lower comp) component_prompts) components in
      match selected_prompts with
      | [] => (Str.cat ["No valid components found. Available: ";
                        Str.join ", " (map fst component_prompts)], st)
      | _ =>
          let prompt_list := Str.join "', '" selected_prompts in
          (d1_directive "query"
             (Str.cat ["SELECT name, content FROM prompts WHERE name IN ('"; prompt_list;
                       "') OR (category = 'travel' AND name LIKE '%base%')"]),
           set_pending (Str.cat ["/travel custom "; Str.join " " components])
                       "travel:custom_init" st)
      end
  end.

Definition _handle_travel_init (st : handler_state) (subcommand : option string)
    (args : list string) : string * handler_state :=
  if sub_is "check" subcommand then
    (d1_directive "query"
       "SELECT name, description, category FROM prompts WHERE category IN ('travel', 'system', 'travel_system', 'assistant') ORDER BY category, name",
     set_pending "/travel check" "prompts:list" st)
  else if sub_is "db" subcommand then
    (d1_directive "query"
       "SELECT content FROM prompts WHERE name IN ('travel_assistant_system', 'travel_system_prompt', 'main_travel_prompt', 'travel_agent_instructions') ORDER BY CASE name WHEN 'travel_assistant_system' THEN 1 WHEN 'travel_system_prompt' THEN 2 WHEN 'main_travel_prompt' THEN 3 ELSE 4 END LIMIT 1",
     set_pending "/travel db" "travel:init" st)
  else if sub_is "full" subcommand then
    (d1_directive "query"
       "SELECT name, content FROM prompts WHERE category = 'travel' OR name LIKE '%travel%' ORDER BY name",
     set_pending "/travel full" "travel:full_init" st)
  else if sub_is "load" subcommand then
    match args with
    | [] => ("Please specify a prompt name. Usage: /travel load <prompt_name>", st)
    | _ =>
        let prompt_name := Str.join " " args in
        (d1_directive "query"
           (Str.cat ["SELECT content FROM prompts WHERE name = '"; prompt_name; "' LIMIT 1"]),
         set_pending (Str.cat ["/travel load "; prompt_name]) "travel:load_specific" st)
    end
  else if sub_is "setup" subcommand then (_travel_setup_wizard, st)
  else if sub_is "help" subcommand then (_travel_init_help, st)
  else if sub_is "custom" subcommand then _travel_custom_init args st
  else
    (Str.cat [directive_prefix; " prompt-server initialize_travel_assistant"],
     set_pending "/travel" "travel:default" st).

Definition valid_fields : list string := ["description"; "content"; "category"; "tags"].

Definition _handle_prompts (st : handler_state) (subcommand : option string)
    (args : list string) : string * handler_state :=
  let no_args := match args with [] => true | _ => false end in
  if negb (sub_truthy subcommand) || sub_is "list" subcommand then
    (d1_directive "query"
       "SELECT name, description, category, tags, updated_at FROM prompts ORDER BY category, name",
     st)
  else if sub_is "view" subcommand then
    if no_args then ("Please specify a prompt name. Usage: /prompts view <prompt_name>", st)
    else
      let prompt_name := Str.join " " args in
      (d1_directive "query"
         (Str.cat ["SELECT * FROM prompts WHERE name = '"; prompt_name; "' LIMIT 1"]), st)
  else if sub_is "dashboard" subcommand then
    (d1_directive "query"
       "SELECT name, description, category, tags, created_at, updated_at FROM prompts ORDER BY category, name",
     st)
  else if sub_is "search" subcommand then
    if no_args then ("Please specify search terms. Usage: /prompts search <keywords>", st)
    else
      let search_term := Str.join " " args in
      (d1_directive "query"
         (Str.cat ["SELECT name, description, category FROM prompts WHERE name LIKE '%";
                   search_term; "%' OR description LIKE '%"; search_term;
                   "%' OR content LIKE '%"; search_term; "%' ORDER BY name"]), st)
  else if sub_is "category" subcommand then
    if no_args then
      (d1_directive "query"
         "SELECT DISTINCT category, COUNT(*) as count FROM prompts GROUP BY category ORDER BY category",
       st)
    else
      let category := Str.join " " args in
      (d1_directive "query"
         (Str.cat ["SELECT name, description FROM prompts WHERE category = '"; category;
                   "' ORDER BY name"]), st)
  else if sub_is "edit" subcommand then
    if no_args then ("Please specify a prompt name. Usage: /prompts edit <prompt_name>", st)
    else
      let prompt_name := Str.join " " args in
      (Str.cat [
         "To edit the prompt '"; prompt_name; "', follow these steps:"; Str.nl; Str.nl;
         "1. First view the prompt: `/prompts view "; prompt_name; "`"; Str.nl;
         "2. Then update specific fields: `/prompts update "; prompt_name;
         " <field> <new_value>`"; Str.nl; Str.nl;
         "Available fields: name, description, content, category, tags"; Str.nl; Str.nl;
         "Example: `/prompts update "; prompt_name; " description New description here`" ],
       st)
  else if sub_is "create" subcommand then
    if no_args then ("Please specify a prompt name. Usage: /prompts create <prompt_name>", st)
    else
      let prompt_name := Str.join " " args in
      (Str.cat [
         "Creating new prompt '"; prompt_name; "'."; Str.nl; Str.nl;
         "Please provide the following details:"; Str.nl;
         "1. **Description**: Brief description of the prompt"; Str.nl;
         "2. **Category**: Category for organization (e.g., 'travel', 'general', 'technical')";
         Str.nl;
         "3. **Content**: The actual prompt content"; Str.nl;
         "4. **Tags** (optional): Comma-separated tags"; Str.nl; Str.nl;
         "Example format:"; Str.nl;
         "```"; Str.nl;
         "Description: A helpful travel planning assistant"; Str.nl;
         "Category: travel"; Str.nl;
         "Content: You are a knowledgeable travel assistant..."; Str.nl;
         "Tags: travel, planning, assistant"; Str.nl;
         "```" ],
       set_pending (Str.cat ["create:"; prompt_name]) "create_workflow" st)
  else if sub_is "update" subcommand then
    match args with
    | prompt_name :: field :: rest =>
        let new_value := match rest with [] => "" | _ => Str.join " " rest end in
        if negb (bool_decide (field ∈ valid_fields)) then
          (Str.cat ["Invalid field '"; field; "'. Valid fields: ";
                    Str.join ", " valid_fields], st)
        else if negb (Str.truthy new_value) then
          (Str.cat ["Please provide a new value for "; field; "."], st)
        else
          let update_query :=
            if decide (field = "tags") then
              let tags_list := map Str.strip (Str.split_on Str.c_comma new_value) in
              let tags_json := json_dumps_strs tags_list in
              Str.cat ["UPDATE prompts SET "; field; " = '"; tags_json;
                       "', updated_at = CURRENT_TIMESTAMP WHERE name = '"; prompt_name; "'"]
            else
              let escaped_value := Str.replace_char Str.c_quote "''" new_value in
              Str.cat ["UPDATE prompts SET "; field; " = '"; escaped_value;
                       "', updated_at = CURRENT_TIMESTAMP WHERE name = '"; prompt_name; "'"]
          in
          (d1_directive "execute" update_query, st)
    | _ =>
        ("Please specify prompt name and field to update. Usage: /prompts update <prompt_name> <field> <new_value>",
         st)
    end
  else if sub_is "delete" subcommand then
    if no_args then ("Please specify a prompt name. Usage: /prompts delete <prompt_name>", st)
    else
      let prompt_name := Str.join " " args in
      (d1_directive "execute"
         (Str.cat ["DELETE FROM prompts WHERE name = '"; prompt_name; "'"]), st)
  else
    (Str.cat ["Unknown subcommand: "; default "" subcommand;
              ". Available: list, view, dashboard, search, category, edit, create, update, delete"],
     st).

Definition _handle_servers (st : handler_state) (subcommand : option string)
    (args : list string) : string * handler_state :=
  ("Please list the available MCP servers.", st).

Definition _handle_connect (st : handler_state) (subcommand : option string)
    (args : list string) : string * handler_state :=
  if negb (sub_truthy subcommand) then
    ("Please specify a server name. Usage: /connect <server-name>", st)
  else
    (Str.cat ["Please connect to the MCP server named '"; default "" subcommand; "'."], st).

Definition _handle_tools (st : handler_state) (subcommand : option string)
    (args : list string) : string * handler_state :=
  if sub_truthy subcommand then
    (Str.cat ["Please search for tools available on the '"; default "" subcommand;
              "' server."], st)
  else ("Please search for all available MCP tools.", st).

(** [unique_commands]: the commands under their canonical names, in the
    order in which [self.commands] first shows each of them. *)
Definition unique_commands (commands : list (string * SlashCommand))
  : list (string * SlashCommand) :=
  fold_left (fun u nc => if dict_has (name nc.2) u then u
                         else dict_set (name nc.2) nc.2 u) commands [].

Definition help_entry (cmd : SlashCommand) : string :=
  let aliases_text :=
    match aliases cmd with
    | [] => ""
    | _ => Str.cat [" (aliases: ";
                    Str.join ", " (map (fun a => "/" +:+ a) (aliases cmd)); ")"]
    end in
  Str.cat ["‚Ä¢ **/"; name cmd; "** - "; description cmd; aliases_text; Str.nl;
           "  Usage: "; usage cmd; Str.nl; Str.nl].

Definition _handle_help (st : handler_state) (subcommand : option string)
    (args : list string) : string * handler_state :=
  if sub_truthy subcommand then
    match dict_get (default "" subcommand) (commands st) with
    | Some cmd =>
        (Str.cat ["**/"; name cmd; "** - "; description cmd; Str.nl;
                  "Usage: "; usage cmd], st)
    | None => (Str.cat ["Unknown command: "; default "" subcommand], st)
    end
  else
    (fold_left (fun help_text nc => help_text +:+ help_entry nc.2)
               (unique_commands (commands st))
               (Str.cat ["**Available slash commands:**"; Str.nl; Str.nl]),
     st).

Definition _handle_create_prompt (st : handler_state) (subcommand : option string)
    (args : list string) : string * handler_state :=
  match args with
  | name :: description :: category :: content :: more =>
      let tags := match more with t :: _ => t | [] => "" end in
      let tags_json :=
        if Str.truthy tags
        then json_dumps_strs (map Str.strip (Str.split_on Str.c_comma tags))
        else "[]" in
      let description := Str.replace_char Str.c_quote "''" description in
      let content := Str.replace_char Str.c_quote "''" content in
      let insert_query :=
        Str.cat [
          "INSERT INTO prompts (name, description, category, content, tags, created_at, updated_at) ";
          "VALUES ('"; name; "', '"; description; "', '"; category; "', '"; content;
          "', '"; tags_json; "', ";
          "CURRENT_TIMESTAMP, CURRENT_TIMESTAMP)" ] in
      (d1_directive "execute" insert_query, st)
  | _ =>
      (Str.cat [
         "Usage: /create-prompt <name> <description> <category> <content> [tags]"; Str.nl;
         "Example: /create-prompt travel-assistant 'Helpful travel planner' travel 'You are a travel assistant...' 'travel,planning'" ],
       st)
  end.

(** [await command.handler(agent, subcommand, args)]. None of the handlers
    has an operation that can raise. *)
Definition call_handler (h : handler_id) (st : handler_state)
    (subcommand : option string) (args : list string)
  : outcome string * handler_state :=
  let '(result, st') :=
    match h with
    | h_travel_init => _handle_travel_init st subcommand args
    | h_prompts => _handle_prompts st subcommand args
    | h_servers => _handle_servers st subcommand args
    | h_connect => _handle_connect st subcommand args
    | h_tools => _handle_tools st subcommand args
    | h_help => _handle_help st subcommand args
    | h_create_prompt => _handle_create_prompt st subcommand args
    end in
  (Returned result, st').

(** How an f-string renders an optional string. *)
Definition fmt_opt (o : option string) : string := default "None" o.

(** [subcommand or 'list'] *)
Definition sub_or_list (subcommand : option string) : string :=
  if sub_truthy subcommand then default "" subcommand else "list".

(** [execute_command]. A command name that is [None] is not a key of
    [self.commands]. When the name is a key, [parse_command] has returned a
    list of arguments. *)
Definition execute_command (input_text : string) (st : handler_state)
  : option string * handler_state :=
  let '(command_name, subcommand, args) := parse_command input_text in
  match command_name ≫= (fun n => dict_get n (commands st)) with
  | None =>
      (Some (Str.cat ["Unknown command: /"; fmt_opt command_name;
                      ". Use /help for available commands."]), st)
  | Some command =>
      match call_handler (handler command) st subcommand (default [] args) with
      | (Returned result, st') =>
          if sub_is "prompts" command_name && Str.startswith directive_prefix result
          then (Some result,
                set_pending input_text
                  (Str.cat [fmt_opt command_name; ":"; sub_or_list subcommand]) st')
          else (Some result, st')
      | (Raised e, st') =>
          (Some (Str.cat ["Error executing command: "; exn_msg e]), st')
      end
  end.

(** [should_format_result] *)
Definition should_format_result (command_text : string) (st : handler_state) : bool :=
  bool_decide (is_Some (pending_format_requests st !! command_text)).

(** *** Formatting a result that was waited for *)

Section Decoder.

Variable json_loads : string -> outcome pyval.

Definition prompt_error_markers : list string :=
  [ "failed to connect"; "connection error"; "database error";
    "server error"; "timeout"; "not found: d1-database" ].

Definition category_listing (db_results : pyval) : outcome string :=
  rows ← py_iter db_results;
  for_each (fun output row =>
              category ← py_get row "category" (PStr "Unknown");
              count ← py_get row "count" (PInt 0);
              Returned (Str.cat [output; "- **"; py_str category; "**: ";
                                 py_str count; " prompts"; Str.nl]))
           rows (Str.cat ["# Prompt Categories"; Str.nl; Str.nl]).

(** The [try] body of [_format_prompt_result]. *)
Definition format_prompt_result_body (subcommand result : string) : outcome string :=
  let lower_result := Str.lower result in
  if existsb (fun error => Str.contains error lower_result) prompt_error_markers then
    Returned (Str.cat [
      "‚ùå Database Error: "; result; Str.nl; Str.nl;
      "Please ensure the D1 database server is running and accessible."; Str.nl;
      "You can check available servers with `/servers` command." ])
  else
    let db_results := PromptViewer.parse_db_results json_loads (PStr result) in
    if negb (truthy db_results) && Str.contains "error" (Str.lower result) then
      Returned (Str.cat ["‚ùå Database query failed: "; result])
    else if bool_decide (subcommand ∈ ["list"; "dashboard"]) then
      if negb (truthy db_results) then
        Returned "No prompts found in the database. The prompts table may be empty or there was an error connecting to the database."
      else PromptViewer.format_prompt_list db_results
    else if decide (subcommand = "view") then
      if truthy db_results then
        p ← py_first db_results; PromptViewer.format_prompt_detail p
      else Returned "Prompt not found. Please check the prompt name and try again."
    else if decide (subcommand = "search") then
      if truthy db_results then PromptViewer.format_prompt_list db_results
      else Returned "No prompts found matching your search criteria."
    else if decide (subcommand = "category") then
      is_listing ←
        (if truthy db_results then
           n ← py_len db_results;
           if (0 <? n)%nat then
             first ← py_first db_results;
             Returned (Str.contains "count" (py_str first))
           else Returned false
         else Returned false);
      if is_listing : bool then category_listing db_results
      else if truthy db_results then PromptViewer.format_prompt_list db_results
      else Returned "No prompts found in this category."
    else if decide (subcommand = "edit") then
      if truthy db_results then
        prompt ← py_first db_results;
        d ← PromptViewer.format_prompt_detail prompt;
        Returned (Str.cat [d; Str.nl; Str.nl; "---"; Str.nl; Str.nl;
                           "To edit this prompt, provide the updated content."])
      else Returned "Prompt not found. Please check the prompt name and try again."
    else if decide (subcommand = "delete") then
      if Str.contains "error" (Str.lower result)
      then Returned (Str.cat ["‚ùå Failed to delete prompt: "; result])
      else Returned "‚úÖ Prompt deleted successfully."
    else Returned result.

Definition _format_prompt_result (subcommand result : string) : string :=
  match format_prompt_result_body subcommand result with
  | Returned s => s
  | Raised e =>
      Str.cat ["‚ùå Error processing command result: "; exn_msg e; Str.nl; Str.nl;
               "Raw result: "; result]
  end.

(** [db_results and db_results[0].get('content')], as a condition; it gives
    the content when the condition holds. *)
Definition first_content (db_results : pyval) : outcome (option pyval) :=
  if truthy db_results then
    first ← py_first db_results;
    c ← py_get first "content" PNone;
    Returned (if truthy c then Some c else None)
  else Returned None.

(** The [try] body of [_format_travel_result]. *)
Definition format_travel_result_body (subcommand result : string) : outcome string :=
  if decide (subcommand = "default") then
    if Str.contains "pricing" (Str.lower result) || Str.contains "tier" (Str.lower result)
    then
      Returned (Str.cat [
        "‚ö†Ô∏è **Unexpected Response from Prompt Server**"; Str.nl; Str.nl;
        "The prompt server returned a pricing system prompt instead of the travel assistant.";
        Str.nl; Str.nl;
        "**Try these alternatives:**"; Str.nl;
        "1. `/travel db` - Load from database"; Str.nl;
        "2. `/travel check` - See available prompts"; Str.nl;
        "3. `/travel setup` - Use setup wizard"; Str.nl;
        "4. `/travel load <prompt_name>` - Load specific prompt"; Str.nl; Str.nl;
        "**Received:**"; Str.nl; Str.take 200 result; "..." ])
    else
      Returned (Str.cat ["‚úÖ **Travel Assistant Initialized**"; Str.nl; Str.nl; result])
  else if decide (subcommand = "init") then
    let db_results := PromptViewer.parse_db_results json_loads (PStr result) in
    c ← first_content db_results;
    match c with
    | Some content =>
        Returned (Str.cat ["‚úÖ **Travel Assistant Loaded from Database**"; Str.nl; Str.nl;
                           py_str content])
    | None =>
        Returned (Str.cat [
          "‚ùå No travel assistant prompt found in database."; Str.nl; Str.nl;
          "Please create one with:"; Str.nl;
          "`/prompts create travel_assistant_system`" ])
    end
  else if decide (subcommand = "full_init") then
    let db_results := PromptViewer.parse_db_results json_loads (PStr result) in
    if truthy db_results then
      prompts ← py_iter db_results;
      for_each (fun output prompt =>
                  name ← py_get prompt "name" (PStr "Unknown");
                  let output := Str.cat [output; "**"; py_str name; "**"; Str.nl] in
                  c ← py_get prompt "content" (PStr "");
                  content ← py_slice 200 c;
                  Returned (Str.cat [output; py_str content; "..."; Str.nl; Str.nl]))
               prompts
               (Str.cat ["‚úÖ **Travel Assistant Components Loaded**"; Str.nl; Str.nl])
    else Returned "‚ùå No travel prompts found in database."
  else if decide (subcommand = "load_specific") then
    let db_results := PromptViewer.parse_db_results json_loads (PStr result) in
    c ← first_content db_results;
    match c with
    | Some content =>
        Returned (Str.cat ["‚úÖ **Prompt Loaded Successfully**"; Str.nl; Str.nl;
                           py_str content])
    | None => Returned "‚ùå Prompt not found. Check the name and try again."
    end
  else if decide (subcommand = "custom_init") then
    let db_results := PromptViewer.parse_db_results json_loads (PStr result) in
    if truthy db_results then
      let output := Str.cat ["‚úÖ **Custom Travel Assistant Initialized**"; Str.nl; Str.nl] in
      let output := Str.cat [output; "**Loaded Components:**"; Str.nl] in
      prompts ← py_iter db_results;
      output ← for_each (fun output prompt =>
                           name ← py_get prompt "name" (PStr "Unknown");
                           Returned (Str.cat [output; "- "; py_str name; Str.nl]))
                        prompts output;
      contents ← map_out (fun p => py_get p "content" (PStr "")) prompts;
      combined ← py_join (Str.cat [Str.nl; Str.nl; "---"; Str.nl; Str.nl]) (PList contents);
      Returned (Str.cat [output; Str.nl; "**Combined Instructions:**"; Str.nl;
                         Str.take 500 combined; "..."])
    else Returned "‚ùå No matching components found in database."
  else Returned result.

Definition _format_travel_result (subcommand result : string) : string :=
  match format_travel_result_body subcommand result with
  | Returned s => s
  | Raised e => Str.cat ["‚ùå Error processing travel initialization: "; exn_msg e]
  end.

Definition clear_pending (key : string) (st : handler_state) : handler_state :=
  {| commands := commands st;
     pending_format_requests := delete key (pending_format_requests st) |}.

(** [command_type, subcommand = format_info.split(":")] *)
Definition unpack_pair (l : list string) : outcome (string * string) :=
  match l with
  | [a; b] => Returned (a, b)
  | _ :: _ :: _ :: _ => raise ValueError ["too many values to unpack (expected 2)"]
  | _ => raise ValueError ["not enough values to unpack (expected 2, got ";
                           pretty (length l); ")"]
  end.

(** [format_command_result]: the entry is popped before anything is done
    with it. *)
Definition format_command_result (command_text result : string) (st : handler_state)
  : outcome string * handler_state :=
  match pending_format_requests st !! command_text with
  | None => (Returned result, st)
  | Some format_info =>
      let st' := clear_pending command_text st in
      (ct ← unpack_pair (Str.split_on Str.c_colon format_info);
       let '(command_type, subcommand) := ct in
       if decide (command_type = "prompts")
       then Returned (_format_prompt_result subcommand result)
       else if decide (command_type = "travel")
       then Returned (_format_travel_result subcommand result)
       else Returned result,
       st')
  end.

End Decoder.

End SlashCommandHandler.

(** ** Definitions used to state the properties *)

Module Spec.

(** Every character of [s] is whitespace (so [s.split()] is empty). *)
Fixpoint all_space (s : string) : bool :=
  match s with
  | EmptyString => true
  | String c s' => Str.isspace c && all_space s'
  end.

(** The text holds one of the error-indicating substrings, in any case. *)
Definition has_error_pattern (s : string) : bool :=
  existsb (fun pattern => Str.contains pattern (Str.lower s))
          PromptViewer.error_patterns.

(** The value of the [results] field, else of the [rows] field. *)
Definition results_or_rows (d : list (string * pyval)) : option pyval :=
  match dict_get "results" d with
  | Some r => Some r
  | None => dict_get "rows" d
  end.

(** A separator row: nothing but dashes, pipes and blanks. *)
Definition is_separator_row (line : string) : bool :=
  forallb (fun c => bool_decide (c = Str.c_dash) || bool_decide (c = Str.c_pipe)
                    || Str.isspace c)
          (String.list_ascii_of_string line).

(** The records of the rows that have as many cells as the header. *)
Definition records_under (headers : list string) (data_lines : list string)
  : list pyval :=
  map (PromptViewer.row_record headers)
      (List.filter (fun values => (length values =? length headers)%nat)
                   (map PromptViewer.cells data_lines)).

(** The pipe table as the specification words it: the header is the first
    line anywhere that holds a pipe and is not a separator row; every later
    line that holds a pipe is a data row. *)
Definition claimed_table (text : string) : list pyval :=
  let lines := Str.split_on Str.c_nl text in
  let fix from_header (lines : list string) : list pyval :=
    match lines with
    | [] => []
    | l :: rest =>
        if Str.has_char Str.c_pipe l && negb (is_separator_row l)
        then records_under (PromptViewer.cells l)
                           (List.filter (Str.has_char Str.c_pipe) rest)
        else from_header rest
    end in
  from_header lines.

(** The pipe table as the code reads it: nothing unless the first line of
    the trimmed text holds a pipe; then the lines that hold a pipe and do
    not begin, once trimmed, with a dash are the table lines, the first of
    them the header and the others the data rows. *)
Definition table_records (text : string) : list pyval :=
  let lines := Str.split_on Str.c_nl (Str.strip text) in
  if Str.has_char Str.c_pipe (hd "" lines) then
    match List.filter PromptViewer.is_table_line lines with
    | [] => []
    | h :: rest => records_under (PromptViewer.cells h) rest
    end
  else [].

(** The table of the example: a header and one matching data row. *)
Definition two_line_table : string :=
  Str.cat ["name | description"; Str.nl; "Foo | Bar"].

(** The dashboard of no prompts at all: the fixed opening, the head of the
    table with no row under it, and counts of zero. *)
Definition empty_dashboard : string :=
  Str.cat [
    "# Prompt Management Dashboard"; Str.nl; Str.nl;
    "This view shows all prompts from the D1 database. ";
    "You can use the slash commands to manage them:"; Str.nl; Str.nl;
    "- `/prompts list` - List all prompts"; Str.nl;
    "- `/prompts view <name>` - View a specific prompt"; Str.nl;
    "- `/prompts edit <name>` - Edit a prompt"; Str.nl;
    "- `/prompts create <name>` - Create a new prompt"; Str.nl;
    "- `/prompts delete <name>` - Delete a prompt"; Str.nl; Str.nl;
    "---"; Str.nl; Str.nl;
    "## All Prompts"; Str.nl; Str.nl;
    "| Category | Name | Description | Actions |"; Str.nl;
    "|----------|------|-------------|----------|"; Str.nl;
    Str.nl; "---"; Str.nl; Str.nl;
    "## Quick Stats"; Str.nl; Str.nl;
    "- Total prompts: 0"; Str.nl;
    "- Categories: 0"; Str.nl ].

(** The text holds one of the markers [_format_prompt_result] looks for. *)
Definition has_prompt_error_marker (s : string) : bool :=
  existsb (fun error => Str.contains error (Str.lower s))
          SlashCommandHandler.prompt_error_markers.

(** The category a record is filed under. *)
Definition category_of (prompt : pyval) : pyval :=
  match prompt with
  | PDict d => default (PStr "Uncategorized") (dict_get "category" d)
  | _ => PStr "Uncategorized"
  end.

(** No two of the keys are equal. *)
Fixpoint keys_distinct (keys : list pyval) : Prop :=
  match keys with
  | [] => True
  | k :: ks =>
      Forall (fun k' => py_eq k k' = false /\ py_eq k' k = false) ks
      /\ keys_distinct ks
  end.

(** [by_category] splits [prompts] into groups by category: no group is
    empty, the prompts of a group have the category of the group, no two
    groups have the same category, and each prompt is in one group. *)
Definition is_category_partition (prompts : list pyval)
    (by_category : PromptViewer.groups) : Prop :=
  Forall (fun g => g.2 <> []) by_category
  /\ Forall (fun g => Forall (fun p => py_eq g.1 (category_of p) = true) g.2)
            by_category
  /\ keys_distinct (map fst by_category)
  /\ concat (map snd by_category) ≡ₚ prompts.

(** The field is absent or holds a string. *)
Definition text_field (k : string) (d : list (string * pyval)) : Prop :=
  match dict_get k d with
  | Some (PStr _) | None => True
  | Some _ => False
  end.

(** A record whose category, name and description are strings where they
    are present. *)
Definition text_record (prompt : pyval) : Prop :=
  match prompt with
  | PDict d =>
      text_field "category" d /\ text_field "name" d /\ text_field "description" d
  | _ => False
  end.

(** [x] can be compared with [y]. *)
Definition compares {A} (lt : A -> A -> outcome bool) (x y : A) : Prop :=
  exists b, lt x y = Returned b.

Definition is_text (v : pyval) : Prop := exists s, v = PStr s.

(** A group of records of text under a category that is a string. *)
Definition text_group (g : pyval * list pyval) : Prop :=
  is_text g.1 /\ Forall text_record g.2.

(** Three records in two categories, one of them with no category. *)
Definition sample_prompts : list pyval :=
  [ PDict [("name", PStr "packing"); ("category", PStr "travel");
           ("description", PStr "What to pack")];
    PDict [("name", PStr "greeting")];
    PDict [("name", PStr "flights"); ("category", PStr "travel")] ].



(** A decoder to run the examples with: it decodes the few texts below as
    [json.loads] does and rejects every other text. *)
Definition sample_loads (s : string) : outcome pyval :=
  if decide (s = "[1]") then Returned (PList [PInt 1])
  else if decide (s = "42") then Returned (PInt 42)
  else if decide (s = "{}") then Returned (PDict [])
  else if decide (s = Str.cat ["{"; Str.dq; "rows"; Str.dq; ": []}"])
       then Returned (PDict [("rows", PList [])])
  else Raised (Exn JSONDecodeError "Expecting value: line 1 column 1 (char 0)").

(** *** Definitions for the further properties *)

(** Every key of the registry is the canonical name or an alias of the
    command found under it. *)
Definition registry_ok
    (commands : list (string * SlashCommandHandler.SlashCommand)) : Prop :=
  forall k cmd,
    dict_get k commands = Some cmd ->
    k = SlashCommandHandler.name cmd \/ k ∈ SlashCommandHandler.aliases cmd.

(** The subcommands for which [_handle_prompts] can return a directive. *)
Definition directive_subcommands : list string :=
  ["list"; "view"; "dashboard"; "search"; "category"; "update"; "delete"].

(** The values [_handle_travel_init] stores. *)
Definition travel_entries : list string :=
  ["prompts:list"; "travel:init"; "travel:full_init"; "travel:load_specific";
   "travel:custom_init"; "travel:default"].

(** No character of [s] is whitespace. *)
Fixpoint no_space (s : string) : bool :=
  match s with
  | EmptyString => true
  | String c s' => negb (Str.isspace c) && no_space s'
  end.

(** A token: a non-empty text with no whitespace in it. *)
Definition is_token (s : string) : Prop := s <> "" /\ no_space s = true.

(** A record read from a table: a mapping from non-empty names to
    non-empty strings. *)
Definition is_table_record (r : pyval) : Prop :=
  exists d, r = PDict d
    /\ Forall (fun kv : string * pyval =>
                 kv.1 <> "" /\ exists s, kv.2 = PStr s /\ s <> "") d.

(** The description as a row of the dashboard shows it. *)
Definition shown_description (s : string) : string :=
  if (50 <? String.length s)%nat then Str.take 50 s +:+ "..." else s.

(** A command to register in the examples, and two commands of the
    registry of [__init__]. *)
Definition quit_command : SlashCommandHandler.SlashCommand :=
  {| SlashCommandHandler.name := "quit";
     SlashCommandHandler.description := "Leave";
     SlashCommandHandler.handler := SlashCommandHandler.h_help;
     SlashCommandHandler.usage := "/quit";
     SlashCommandHandler.aliases := ["bye"] |}.

Definition travel_command : SlashCommandHandler.SlashCommand :=
  {| SlashCommandHandler.name := "travel";
     SlashCommandHandler.description := "Initialize the travel assistant";
     SlashCommandHandler.handler := SlashCommandHandler.h_travel_init;
     SlashCommandHandler.usage := "/travel or /t";
     SlashCommandHandler.aliases := ["t"; "init-travel"; "travel-init"; "start"] |}.

Definition prompts_command : SlashCommandHandler.SlashCommand :=
  {| SlashCommandHandler.name := "prompts";
     SlashCommandHandler.description := "View and manage D1 database prompts";
     SlashCommandHandler.handler := SlashCommandHandler.h_prompts;
     SlashCommandHandler.usage :=
       "/prompts [list|view|dashboard|search|category|edit|create|delete|update]";
     SlashCommandHandler.aliases := ["p"; "prompt"] |}.

End Spec.

(** * Properties *)

Import SlashCommandHandler.

(** ** Trimming and splitting *)

Section StringFacts.

Lemma slash_not_space : Str.isspace Str.c_slash = false.
Proof. reflexivity. Qed.

Lemma lstrip_all_space s : Spec.all_space (Str.lstrip s) = Spec.all_space s.
Proof.
  induction s as [|c s IH]; simpl; [done|].
  destruct (Str.isspace c) eqn:Hc; simpl; [done|by rewrite Hc].
Qed.

Lemma rstrip_all_space s : Spec.all_space (Str.rstrip s) = Spec.all_space s.
Proof.
  induction s as [|c s IH]; simpl; [done|].
  destruct (Str.isspace c) eqn:Hc; simpl.
  - destruct (Str.rstrip s) eqn:Hr; simpl in *; [by rewrite <- IH|].
    by rewrite Hc, <- IH.
  - by rewrite Hc.
Qed.

Lemma strip_all_space s : Spec.all_space (Str.strip s) = Spec.all_space s.
Proof. unfold Str.strip. by rewrite rstrip_all_space, lstrip_all_space. Qed.

Lemma split_go_some t s : Str.split_go (Some t) s <> [].
Proof.
  revert t. induction s as [|c s IH]; intros t; simpl; [done|].
  destruct (Str.isspace c); [done|apply IH].
Qed.

Lemma split_ws_nil s : Str.split_ws s = [] <-> Spec.all_space s = true.
Proof.
  unfold Str.split_ws. induction s as [|c s IH]; simpl; [done|].
  destruct (Str.isspace c); simpl; [done|].
  split; [|done]. intros H. by apply split_go_some in H.
Qed.

(** Trimming keeps a leading non-blank character in place. *)
Lemma strip_keeps_head c s :
  Str.isspace c = false -> exists r, Str.strip (String c s) = String c r.
Proof.
  intros Hc. unfold Str.strip. simpl. rewrite Hc. simpl. rewrite Hc. simpl. eauto.
Qed.

Lemma startswith_slash_strip s :
  Str.startswith_char Str.c_slash s = true ->
  Str.startswith_char Str.c_slash (Str.strip s) = true.
Proof.
  destruct s as [|c s]; [done|].
  unfold Str.startswith_char at 1.
  destruct (decide (c = Str.c_slash)) as [->|]; [intros _|done].
  destruct (strip_keeps_head Str.c_slash s slash_not_space) as [r ->].
  unfold Str.startswith_char. by destruct (decide (Str.c_slash = Str.c_slash)).
Qed.

End StringFacts.

(** ** The parser and the command test *)

Section Parser.

(** [parse_command] answers "not a command" exactly on the inputs that do
    not begin with the prefix or have nothing but blanks after it. *)
Lemma parse_command_none_iff input :
  parse_command input = not_a_command <->
  Str.startswith_char Str.c_slash input = false
  \/ Spec.all_space (Str.tail input) = true.
Proof.
  unfold parse_command.
  destruct (Str.startswith_char Str.c_slash input) eqn:Hs; simpl.
  - destruct (Str.split_ws (Str.strip (Str.tail input))) as [|p0 rest] eqn:Hp.
    + apply split_ws_nil in Hp. rewrite strip_all_space in Hp. naive_solver.
    + split; [done|]. intros [?|Ha]; [done|].
      rewrite <- strip_all_space in Ha. apply split_ws_nil in Ha. congruence.
  - naive_solver.
Qed.

End Parser.

Section CommandTest.

(** C1, as stated, fails on the input ["/"]: [is_slash_command] accepts it
    while [parse_command] answers "not a command". *)
Lemma C1_counterexample :
  ~ (is_slash_command "/" = true <-> parse_command "/" <> not_a_command).
Proof.
  intros [H _]. apply H; reflexivity.
Qed.

(** C1 (amended). [is_slash_command] holds exactly of the inputs that begin
    with the prefix once trimmed; whenever [parse_command] gives a command,
    [is_slash_command] holds; and on an input that itself begins with the
    prefix, [parse_command] gives a command exactly when a non-blank
    character follows the prefix. *)
Theorem C1_is_command_and_parse input :
  (is_slash_command input = true
   <-> Str.startswith_char Str.c_slash (Str.strip input) = true)
  /\ (parse_command input <> not_a_command -> is_slash_command input = true)
  /\ (Str.startswith_char Str.c_slash input = true ->
      (parse_command input <> not_a_command
       <-> Spec.all_space (Str.tail input) = false)).
Proof.
  split; [done|]. split.
  - intros Hp. unfold is_slash_command. apply startswith_slash_strip.
    destruct (Str.startswith_char Str.c_slash input) eqn:Hs; [done|].
    exfalso. apply Hp. apply parse_command_none_iff. by left.
  - intros Hs. rewrite parse_command_none_iff.
    destruct (Spec.all_space (Str.tail input)); split; try done.
    + intros H. exfalso. apply H. by right.
    + intros _ [H|H]; congruence.
Qed.

(** The theorem at [/help me]. *)
Lemma C1_witness :
  parse_command "/help me" <> not_a_command /\ is_slash_command "/help me" = true.
Proof.
  assert (H : parse_command "/help me" <> not_a_command) by (vm_compute; discriminate).
  split; [exact H|].
  exact (proj1 (proj2 (C1_is_command_and_parse "/help me")) H).
Defined.

(** C10. On every input that [parse_command] does not take for a command,
    [execute_command] returns the unknown-command message with [None] as the
    name, and leaves the state as it was. *)
Theorem C10_unparsed_input_is_unknown_command input st :
  parse_command input = not_a_command ->
  execute_command input st
  = (Some "Unknown command: /None. Use /help for available commands.", st).
Proof.
  intros H. unfold execute_command. rewrite H. reflexivity.
Qed.

(** The theorem at an input with blanks before the prefix. *)
Lemma C10_witness :
  parse_command "  /help" = not_a_command
  /\ execute_command "  /help" init
     = (Some "Unknown command: /None. Use /help for available commands.", init).
Proof.
  assert (H : parse_command "  /help" = not_a_command) by reflexivity.
  split; [exact H|].
  exact (C10_unparsed_input_is_unknown_command "  /help" init H).
Defined.

End CommandTest.

(** ** Pending entries: recording *)

Section Recording.

(** C2, as stated, fails on [/create-prompt]: its handler returns a
    directive, and [execute_command] records nothing under the input. *)
Lemma C2_counterexample :
  let input := "/create-prompt quick note Short general Text" in
  exists result,
    (execute_command input init).1 = Some result
    /\ Str.startswith directive_prefix result = true
    /\ pending_format_requests (execute_command input init).2 !! input = None
    /\ pending_format_requests (execute_command input init).2 = ∅.
Proof.
  eexists. split; [reflexivity|]. split; [reflexivity|]. split; reflexivity.
Qed.

(** C2 (amended). When the command token of the input is [prompts] and the
    handler returns a text that begins with [use_tool_from_server],
    [execute_command] records, under the raw input text itself, the entry
    [prompts:<subcommand>], with [list] for a missing subcommand. *)
Theorem C2_prompts_directive_is_recorded
    input st subcommand args command result st' :
  parse_command input = (Some "prompts", subcommand, Some args) ->
  dict_get "prompts" (commands st) = Some command ->
  call_handler (handler command) st subcommand args = (Returned result, st') ->
  Str.startswith directive_prefix result = true ->
  execute_command input st
  = (Some result,
     set_pending input (Str.cat ["prompts"; ":"; sub_or_list subcommand]) st')
  /\ pending_format_requests (execute_command input st).2 !! input
     = Some (Str.cat ["prompts"; ":"; sub_or_list subcommand]).
Proof.
  intros Hp Hc Hh Hd.
  assert (He : execute_command input st
    = (Some result,
       set_pending input (Str.cat ["prompts"; ":"; sub_or_list subcommand]) st')).
  { unfold execute_command. rewrite Hp. cbv beta iota zeta.
    change (Some "prompts" ≫= _) with (dict_get "prompts" (commands st)).
    rewrite Hc.
    change (default [] (Some args)) with args. rewrite Hh.
    change (sub_is "prompts" (Some "prompts")) with true.
    rewrite Hd. reflexivity. }
  split; [exact He|]. rewrite He. simpl. apply lookup_insert_eq.
Qed.

(** The theorem at [/prompts view a]. *)
Lemma C2_witness :
  pending_format_requests (execute_command "/prompts view a" init).2
    !! "/prompts view a" = Some "prompts:view".
Proof.
  exact (proj2 (C2_prompts_directive_is_recorded
    "/prompts view a" init (Some "view") ["a"]
    {| name := "prompts"; description := "View and manage D1 database prompts";
       handler := h_prompts;
       usage := "/prompts [list|view|dashboard|search|category|edit|create|delete|update]";
       aliases := ["p"; "prompt"] |}
    (d1_directive "query" "SELECT * FROM prompts WHERE name = 'a' LIMIT 1")
    init eq_refl eq_refl eq_refl eq_refl)).
Defined.

End Recording.

(** ** Pending entries: resolution *)

Section Resolution.

Variable json_loads : string -> outcome pyval.

Lemma format_command_result_not_pending key raw st :
  pending_format_requests st !! key = None ->
  format_command_result json_loads key raw st = (Returned raw, st).
Proof. intros H. unfold format_command_result. by rewrite H. Qed.

Lemma format_command_result_state key raw st :
  is_Some (pending_format_requests st !! key) ->
  (format_command_result json_loads key raw st).2 = clear_pending key st.
Proof. intros [v H]. unfold format_command_result. by rewrite H. Qed.

Lemma clear_pending_lookup key st :
  pending_format_requests (clear_pending key st) !! key = None.
Proof. simpl. apply lookup_delete_eq. Qed.

(** C3. A key with no pending entry passes the payload through; a pending
    entry is removed by the first call, whatever that call returns, so that
    a second call with the same key passes its payload through. *)
Theorem C3_resolve_exactly_once key raw st :
  (pending_format_requests st !! key = None ->
   format_command_result json_loads key raw st = (Returned raw, st))
  /\ (is_Some (pending_format_requests st !! key) ->
      let st1 := (format_command_result json_loads key raw st).2 in
      st1 = clear_pending key st
      /\ pending_format_requests st1 !! key = None
      /\ forall raw',
           format_command_result json_loads key raw' st1 = (Returned raw', st1)).
Proof.
  split; [apply format_command_result_not_pending|].
  intros Hs. simpl. rewrite (format_command_result_state _ _ _ Hs).
  split; [done|]. split; [apply clear_pending_lookup|].
  intros raw'. apply format_command_result_not_pending, clear_pending_lookup.
Qed.

End Resolution.

(** The theorem at the entry that [/travel db] leaves. *)
Lemma C3_witness :
  let st := (execute_command "/travel db" init).2 in
  let st1 := (format_command_result Spec.sample_loads "/travel db" "[1]" st).2 in
  is_Some (pending_format_requests st !! "/travel db")
  /\ format_command_result Spec.sample_loads "/travel db" "[1]" st1
     = (Returned "[1]", st1).
Proof.
  assert (H : is_Some (pending_format_requests (execute_command "/travel db" init).2
                         !! "/travel db")) by (eexists; reflexivity).
  split; [exact H|].
  exact (proj2 (proj2 (proj2 (C3_resolve_exactly_once Spec.sample_loads
           "/travel db" "[1]" (execute_command "/travel db" init).2) H)) "[1]").
Defined.

(** C9, in the code: the entry that [/prompts create foo] leaves under
    [create:foo] holds no colon, so unpacking it raises a [ValueError] that
    leaves [format_command_result]; and the error block of the travel
    results does not hold the raw payload. *)
Theorem C9_failure_leaves_resolve :
  let st := (execute_command "/prompts create foo" init).2 in
  let st_db := (execute_command "/travel db" init).2 in
  pending_format_requests st !! "create:foo" = Some "create_workflow"
  /\ (forall json_loads raw,
        format_command_result json_loads "create:foo" raw st
        = (Raised (Exn ValueError "not enough values to unpack (expected 2, got 1)"),
           clear_pending "create:foo" st))
  /\ exists block,
       (format_command_result Spec.sample_loads "/travel db" "[1]" st_db).1
       = Returned block
       /\ Str.contains "'int' object has no attribute 'get'" block = true
       /\ Str.contains "[1]" block = false.
Proof.
  split; [reflexivity|]. split; [intros; reflexivity|].
  eexists. split; [reflexivity|]. split; reflexivity.
Qed.

(** ** Normalising a result *)

Section Normalising.

Variable json_loads : string -> outcome pyval.

Local Abbreviation parse_db_results := (PromptViewer.parse_db_results json_loads).

Lemma parse_db_results_mapping d :
  parse_db_results (PDict d)
  = if dict_has "error" d then PList []
    else default (PList [PDict d]) (Spec.results_or_rows d).
Proof.
  unfold PromptViewer.parse_db_results, PromptViewer.parse_db_results_body,
    Spec.results_or_rows.
  destruct (dict_has "error" d); [done|].
  by destruct (dict_get "results" d), (dict_get "rows" d).
Qed.

Lemma parse_db_results_error_text s :
  Spec.has_error_pattern s = true -> parse_db_results (PStr s) = PList [].
Proof.
  unfold Spec.has_error_pattern, PromptViewer.parse_db_results,
    PromptViewer.parse_db_results_body.
  by intros ->.
Qed.

Lemma parse_db_results_decoded s data :
  Spec.has_error_pattern s = false ->
  json_loads s = Returned data ->
  parse_db_results (PStr s)
  = match data with
    | PList _ => data
    | PDict d =>
        match Spec.results_or_rows d with
        | Some r => r
        | None => if dict_has "error" d then PList [] else PNone
        end
    | _ => PNone
    end.
Proof.
  unfold Spec.has_error_pattern, PromptViewer.parse_db_results,
    PromptViewer.parse_db_results_body, Spec.results_or_rows.
  intros -> ->. destruct data as [| | | |l|d]; try done.
  by destruct (dict_get "results" d), (dict_get "rows" d), (dict_has "error" d).
Qed.

(** C4 (amended). A mapping given directly yields the empty sequence when
    it has an [error] field, else the value of its [results] field, else the
    value of its [rows] field (whatever that value is), else itself as a
    one-element sequence. A text that holds an error-indicating substring
    yields the empty sequence; any other text that decodes to a mapping with
    no [error] field yields the value of [results], else of [rows], when one
    is present, and a mapping with an [error] field and neither of the two
    yields the empty sequence. *)
Theorem C4_single_mapping d :
  parse_db_results (PDict d)
  = (if dict_has "error" d then PList []
     else default (PList [PDict d]) (Spec.results_or_rows d))
  /\ forall s,
       (Spec.has_error_pattern s = true -> parse_db_results (PStr s) = PList [])
       /\ (Spec.has_error_pattern s = false ->
           json_loads s = Returned (PDict d) ->
           (forall r, Spec.results_or_rows d = Some r ->
                      dict_has "error" d = false ->
                      parse_db_results (PStr s) = r)
           /\ (Spec.results_or_rows d = None ->
               dict_has "error" d = true ->
               parse_db_results (PStr s) = PList [])).
Proof.
  split; [apply parse_db_results_mapping|].
  intros s. split; [apply parse_db_results_error_text|].
  intros Hs Hl. rewrite (parse_db_results_decoded s _ Hs Hl).
  split.
  - by intros r -> _.
  - by intros -> ->.
Qed.

(** What the claim C5 says of the other inputs does hold: a value that is
    neither text, list nor mapping, and a text that is not JSON and holds no
    table, give the empty sequence. *)
Lemma parse_db_results_scalar v :
  match v with PNone | PBool _ | PInt _ => True | _ => False end ->
  parse_db_results v = PList [].
Proof. by destruct v. Qed.

Lemma parse_db_results_empty_text e :
  json_loads "" = Raised e -> exn_cls e = JSONDecodeError ->
  parse_db_results (PStr "") = PList [].
Proof.
  intros H1 H2.
  unfold PromptViewer.parse_db_results, PromptViewer.parse_db_results_body.
  cbn. rewrite H1. by rewrite decide_True.
Qed.

(** C5, in the code: a text that decodes to a bare number matches none of
    the branches taken after decoding, and the function falls off its end:
    the answer is [None], not the empty sequence. *)
Theorem C5_json_scalar_gives_none :
  json_loads "42" = Returned (PInt 42) ->
  parse_db_results (PStr "42") = PNone.
Proof.
  intros H. by rewrite (parse_db_results_decoded "42" _ eq_refl H).
Qed.

End Normalising.

(** C4, as stated, fails on a mapping whose [results] field is not a
    sequence: the value is returned as it is, not the wrapped mapping. *)
Lemma C4_counterexample :
  let m := PDict [("results", PInt 5)] in
  PromptViewer.parse_db_results Spec.sample_loads m = PInt 5
  /\ PromptViewer.parse_db_results Spec.sample_loads m <> PList [m].
Proof. split; [reflexivity|discriminate]. Qed.

(** The theorem at the text of a mapping with an empty [rows] field. *)
Lemma C4_witness :
  let s := Str.cat ["{"; Str.dq; "rows"; Str.dq; ": []}"] in
  Spec.has_error_pattern s = false
  /\ PromptViewer.parse_db_results Spec.sample_loads (PStr s) = PList [].
Proof.
  split; [reflexivity|].
  exact (proj1 (proj2 (proj2 (C4_single_mapping Spec.sample_loads
           [("rows", PList [])])
           (Str.cat ["{"; Str.dq; "rows"; Str.dq; ": []}"])) eq_refl eq_refl)
         (PList []) eq_refl eq_refl).
Defined.

(** The theorem with the sample decoder. *)
Lemma C5_witness :
  Spec.sample_loads "42" = Returned (PInt 42)
  /\ PromptViewer.parse_db_results Spec.sample_loads (PStr "42") = PNone.
Proof.
  split; [reflexivity|].
  exact (C5_json_scalar_gives_none Spec.sample_loads eq_refl).
Defined.

(** ** The pipe-table fallback *)

Section PipeTable.

Import PromptViewer.

(** The loop once the header is known: each later table line with the
    header's number of cells adds its record. *)
Lemma table_loop_with_header i headers lines n rs :
  fold_left table_step (zip (seq n (length lines)) lines)
            (TableState (Some (i, headers)) rs)
  = TableState (Some (i, headers))
      (rs ++ Spec.records_under headers (List.filter is_table_line lines)).
Proof.
  revert n rs. induction lines as [|l lines IH]; intros n rs.
  - simpl. by rewrite app_nil_r.
  - cbn [length seq zip zip_with fold_left]. unfold table_step at 2.
    cbn [header rows List.filter].
    destruct (is_table_line l); [|apply IH].
    unfold Spec.records_under. cbn [map List.filter].
    destruct (length (cells l) =? length headers)%nat.
    + rewrite IH. unfold Spec.records_under. cbn [map].
      by rewrite <- app_assoc.
    + apply IH.
Qed.

(** The loop before the header is known. *)
Lemma table_loop_without_header lines n :
  rows (fold_left table_step (zip (seq n (length lines)) lines)
                  (TableState None []))
  = match List.filter is_table_line lines with
    | [] => []
    | h :: rest => Spec.records_under (cells h) rest
    end.
Proof.
  revert n. induction lines as [|l lines IH]; intros n; [done|].
  cbn [length seq zip zip_with fold_left]. unfold table_step at 2.
  cbn [header rows List.filter].
  destruct (is_table_line l); [|apply IH].
  by rewrite table_loop_with_header.
Qed.

(** C6 (amended). When the first line of the trimmed text holds a pipe, the
    first line that holds a pipe and does not begin with a dash is the
    header, and each later such line whose number of cells is the header's
    gives a record, the others being dropped; otherwise there are no
    records. The two-line table of the example gives its one record. *)
Theorem C6_pipe_table text :
  _parse_text_results text = Spec.table_records text
  /\ _parse_text_results Spec.two_line_table
     = [PDict [("name", PStr "Foo"); ("description", PStr "Bar")]].
Proof.
  split; [|reflexivity].
  unfold _parse_text_results, Spec.table_records, enumerate.
  destruct (Str.split_on Str.c_nl (Str.strip text)) as [|first lines] eqn:Hl;
    [done|].
  cbn [hd]. destruct (Str.has_char Str.c_pipe first); [|done].
  apply table_loop_without_header.
Qed.

(** C6, as stated, fails when a line without a pipe comes first: the lines
    of the table that follow are not read. *)
Lemma C6_counterexample :
  let text := Str.cat ["Results:"; Str.nl; "name | description"; Str.nl; "Foo | Bar"] in
  _parse_text_results text = []
  /\ Spec.claimed_table text
     = [PDict [("name", PStr "Foo"); ("description", PStr "Bar")]].
Proof. split; reflexivity. Qed.

End PipeTable.

(** ** Rendering no record at all *)

Section EmptySequence.

(** C7, as stated, fails for the dashboard: on the empty sequence it
    returns the whole document, with an empty table and counts of zero. *)
Lemma C7_counterexample :
  PromptViewer.create_prompt_editor_view (PList []) = Returned Spec.empty_dashboard
  /\ PromptViewer.create_prompt_editor_view (PList [])
     <> Returned PromptViewer.no_prompts_found
  /\ Str.startswith "# Prompt Management Dashboard" Spec.empty_dashboard = true
  /\ Str.contains "- Total prompts: 0" Spec.empty_dashboard = true.
Proof.
  split; [reflexivity|]. split; [discriminate|]. split; reflexivity.
Qed.

(** C7 (amended). On the empty sequence the list view returns
    [No prompts found.] and the dashboard returns its document with no row
    and counts of zero. The detail view renders one record; when the result
    of a [view] parses to the empty sequence, [_format_prompt_result]
    answers for it: with the database error block when the raw result holds
    an error marker, else with [Database query failed] and the raw result
    when that holds [error] in any case, else with [Prompt not found]. *)
Theorem C7_empty_sequence :
  PromptViewer.format_prompt_list (PList []) = Returned "No prompts found."
  /\ PromptViewer.create_prompt_editor_view (PList [])
     = Returned Spec.empty_dashboard
  /\ forall json_loads result,
       PromptViewer.parse_db_results json_loads (PStr result) = PList [] ->
       _format_prompt_result json_loads "view" result
       = if Spec.has_prompt_error_marker result then
           Str.cat [
             "‚ùå Database Error: "; result; Str.nl; Str.nl;
             "Please ensure the D1 database server is running and accessible.";
             Str.nl;
             "You can check available servers with `/servers` command." ]
         else if Str.contains "error" (Str.lower result) then
           Str.cat ["‚ùå Database query failed: "; result]
         else "Prompt not found. Please check the prompt name and try again.".
Proof.
  split; [reflexivity|]. split; [reflexivity|].
  intros json_loads result Hp.
  unfold _format_prompt_result, format_prompt_result_body.
  unfold Spec.has_prompt_error_marker.
  destruct (existsb _ prompt_error_markers); [reflexivity|].
  rewrite Hp.
  destruct (Str.contains "error" (Str.lower result)); reflexivity.
Qed.

(** The theorem at the empty result of a [view]. *)
Lemma C7_witness :
  PromptViewer.parse_db_results Spec.sample_loads (PStr "") = PList []
  /\ _format_prompt_result Spec.sample_loads "view" ""
     = "Prompt not found. Please check the prompt name and try again.".
Proof.
  split; [reflexivity|].
  exact (proj2 (proj2 C7_empty_sequence) Spec.sample_loads "" eq_refl).
Defined.

End EmptySequence.

(** ** The dashboard and its counts *)

Import PromptViewer.

Section Outcomes.

Lemma bind_returned {A B} (m : outcome A) (f : A -> outcome B) b :
  m ≫= f = Returned b -> exists a, m = Returned a /\ f a = Returned b.
Proof. destruct m as [a|e]; [eauto|discriminate]. Qed.

Lemma bind_ret {A B} (a : A) (f : A -> outcome B) : Returned a ≫= f = f a.
Proof. reflexivity. Qed.

Lemma str_app_nil_r s : s +:+ "" = s.
Proof.
  induction s as [|c s IH]; [done|].
  change (String c (s +:+ "") = String c s). by rewrite IH.
Qed.

Lemma str_app_assoc s1 s2 s3 : (s1 +:+ s2) +:+ s3 = s1 +:+ s2 +:+ s3.
Proof.
  induction s1 as [|c s1 IH]; [done|].
  change (String c ((s1 +:+ s2) +:+ s3) = String c (s1 +:+ s2 +:+ s3)).
  by rewrite IH.
Qed.

(** A loop that only appends to its text returns its initial text
    followed by what it appended. *)
Lemma for_each_appends {A} (body : string -> A -> outcome string) l s s' :
  (forall s a s', body s a = Returned s' -> exists r, s' = s +:+ r) ->
  for_each body l s = Returned s' -> exists r, s' = s +:+ r.
Proof.
  intros Hb. revert s. induction l as [|a l IH]; intros s H.
  - injection H as <-. exists "". by rewrite str_app_nil_r.
  - cbn in H. apply bind_returned in H as (s1 & H1 & H2).
    apply Hb in H1 as [r1 ->]. apply IH in H2 as [r2 ->].
    exists (r1 +:+ r2). by rewrite str_app_assoc.
Qed.

End Outcomes.

Section Grouping.

Lemma py_eq_hashable_refl c : py_hashable c = Returned tt -> py_eq c c = true.
Proof.
  destruct c as [|b|z|s|l|d]; simpl; try done.
  - intros _. apply Z.eqb_refl.
  - intros _. apply Z.eqb_refl.
  - intros _. by destruct (decide (s = s)).
Qed.

Lemma py_eq_hashable_sym c k : py_hashable c = Returned tt -> py_eq c k = py_eq k c.
Proof.
  destruct c as [|b|z|s|l|d], k as [|b'|z'|s'|l'|d']; simpl; try done;
    intros _; try apply Z.eqb_sym.
  destruct (decide (s = s')), (decide (s' = s)); congruence.
Qed.

Lemma py_get_category prompt c :
  py_get prompt "category" (PStr "Uncategorized") = Returned c ->
  c = Spec.category_of prompt.
Proof. destruct prompt; unfold py_get, raise; simpl; congruence. Qed.

Lemma keys_distinct_snoc ks c :
  Spec.keys_distinct ks ->
  Forall (fun k => py_eq k c = false /\ py_eq c k = false) ks ->
  Spec.keys_distinct (ks ++ [c]).
Proof.
  induction ks as [|k ks IH]; simpl; [by auto|].
  intros [Hk Hd] Hc. apply Forall_cons in Hc as [Hkc Hc]. split; [|by apply IH].
  apply Forall_app. split; [done|]. by apply Forall_singleton.
Qed.

(** What [group_add] does to the keys: it leaves them as they are when one
    of them equals the category, and adds the category at the end when
    none does. *)
Lemma group_add_keys c p g :
  map fst (group_add c p g) = map fst g
  \/ (Forall (fun k => py_eq k c = false) (map fst g)
      /\ map fst (group_add c p g) = map fst g ++ [c]).
Proof.
  induction g as [|[k ps] g IH]; simpl; [by right|].
  destruct (py_eq k c) eqn:Hk; simpl; [by left|].
  destruct IH as [->|[Hf ->]]; [by left|right]. split; [|done].
  by apply Forall_cons.
Qed.

Lemma group_add_nonempty c p g :
  Forall (fun g => g.2 <> []) g ->
  Forall (fun g => g.2 <> []) (group_add c p g).
Proof.
  induction g as [|[k ps] g IH]; simpl; intros H.
  - by apply Forall_singleton.
  - apply Forall_cons in H as [H1 H2].
    destruct (py_eq k c); apply Forall_cons; split; simpl in *; auto.
    by destruct ps.
Qed.

Lemma group_add_members c p g :
  py_eq c (Spec.category_of p) = true ->
  (forall k, py_eq k c = true -> py_eq k (Spec.category_of p) = true) ->
  Forall (fun g => Forall (fun p => py_eq g.1 (Spec.category_of p) = true) g.2) g ->
  Forall (fun g => Forall (fun p => py_eq g.1 (Spec.category_of p) = true) g.2)
         (group_add c p g).
Proof.
  intros Hc Hk. induction g as [|[k ps] g IH]; simpl; intros H.
  - apply Forall_singleton. simpl. by apply Forall_singleton.
  - apply Forall_cons in H as [H1 H2].
    destruct (py_eq k c) eqn:Hkc; apply Forall_cons; split; simpl in *; auto.
    apply Forall_app. split; [done|]. apply Forall_singleton. by apply Hk.
Qed.

Lemma group_add_cover c p g :
  concat (map snd (group_add c p g)) ≡ₚ concat (map snd g) ++ [p].
Proof.
  induction g as [|[k ps] g IH]; simpl; [done|].
  destruct (py_eq k c); simpl.
  - rewrite <- !app_assoc. apply Permutation_app_head, Permutation_app_comm.
  - rewrite IH. by rewrite app_assoc.
Qed.

(** One turn of the grouping loop keeps the partition. *)
Lemma group_step_partition prompts g p g' :
  Spec.is_category_partition prompts g ->
  group_step g p = Returned g' ->
  Spec.is_category_partition (prompts ++ [p]) g'.
Proof.
  intros (Hn & Hm & Hd & Hc) Hs. unfold group_step in Hs.
  apply bind_returned in Hs as (c & Hg & Hs).
  apply bind_returned in Hs as ([] & Hh & Hs). injection Hs as <-.
  apply py_get_category in Hg as Hcat.
  split; [by apply group_add_nonempty|]. split; [|split].
  - apply group_add_members; [| |done].
    + rewrite <- Hcat. by apply py_eq_hashable_refl.
    + intros k. by rewrite <- Hcat.
  - destruct (group_add_keys c p g) as [->|[Hf ->]]; [done|].
    apply keys_distinct_snoc; [done|].
    eapply Forall_impl; [exact Hf|]. intros k Hk. split; [done|].
    by rewrite py_eq_hashable_sym.
  - rewrite group_add_cover. by rewrite Hc.
Qed.

Lemma for_each_group_step_partition l prompts g g' :
  Spec.is_category_partition prompts g ->
  for_each group_step l g = Returned g' ->
  Spec.is_category_partition (prompts ++ l) g'.
Proof.
  revert prompts g. induction l as [|p l IH]; intros prompts g Hp H.
  - injection H as <-. by rewrite app_nil_r.
  - cbn in H. apply bind_returned in H as (g1 & H1 & H2).
    replace (prompts ++ p :: l) with ((prompts ++ [p]) ++ l)
      by (by rewrite <- app_assoc).
    eapply IH; [|exact H2]. by eapply group_step_partition.
Qed.

(** The grouping of the dashboard and of the list view is a partition of
    the prompts by category. *)
Lemma group_by_category_partition prompts g :
  group_by_category prompts = Returned g ->
  Spec.is_category_partition prompts g.
Proof.
  intros H. apply (for_each_group_step_partition prompts [] [] g); [|done].
  repeat split; simpl; auto. 
Qed.


End Grouping.

Section Sorting.

Context {A : Type} (lt : A -> A -> outcome bool).

Lemma insert_sorted_perm x rs r :
  insert_sorted lt x rs = Returned r -> r ≡ₚ x :: rs.
Proof.
  revert r. induction rs as [|y rs IH]; intros r H; cbn in H.
  - by injection H as <-.
  - apply bind_returned in H as (b & Hb & H). destruct b.
    + apply bind_returned in H as (r' & Hr & H). injection H as <-.
      rewrite (IH _ Hr). apply Permutation_swap.
    + by injection H as <-.
Qed.

Lemma insert_loop_perm l rs0 rs :
  for_each (fun rs x => insert_sorted lt x rs) l rs0 = Returned rs ->
  rs ≡ₚ rs0 ++ l.
Proof.
  revert rs0. induction l as [|x l IH]; intros rs0 H; cbn in H.
  - injection H as <-. by rewrite app_nil_r.
  - apply bind_returned in H as (r1 & H1 & H2).
    rewrite (IH _ H2), (insert_sorted_perm _ _ _ H1).
    simpl. apply Permutation_middle.
Qed.

(** [sorted] rearranges its argument. *)
Lemma sorted_by_perm l s : sorted_by lt l = Returned s -> s ≡ₚ l.
Proof.
  unfold sorted_by. intros H. apply bind_returned in H as (rs & H1 & H2).
  injection H2 as <-. rewrite <- Permutation_rev.
  by rewrite (insert_loop_perm _ _ _ H1).
Qed.

Lemma insert_sorted_total x rs :
  Forall (Spec.compares lt x) rs -> exists r, insert_sorted lt x rs = Returned r.
Proof.
  induction rs as [|y rs IH]; intros H; cbn; [eauto|].
  apply Forall_cons in H as [[b Hb] H]. rewrite Hb. cbn.
  destruct b; [|eauto]. destruct (IH H) as [r ->]. cbn. eauto.
Qed.

Lemma insert_loop_total l rs0 :
  Forall (fun x => Forall (Spec.compares lt x) rs0) l ->
  ForallOrdPairs (fun y x => Spec.compares lt x y) l ->
  exists rs, for_each (fun rs x => insert_sorted lt x rs) l rs0 = Returned rs.
Proof.
  revert rs0. induction l as [|x l IH]; intros rs0 H0 Hl; cbn; [eauto|].
  apply Forall_cons in H0 as [Hx H0]. inversion Hl as [|? ? Hxl Hl']; subst.
  destruct (insert_sorted_total x rs0 Hx) as [r Hr]. rewrite Hr. cbn.
  apply IH; [|done].
  apply Forall_forall. intros y Hy.
  rewrite (insert_sorted_perm _ _ _ Hr). apply Forall_cons. split.
  - rewrite Forall_forall in Hxl. by apply Hxl.
  - rewrite Forall_forall in H0. by apply H0.
Qed.

(** [sorted] returns when each item can be compared with the items that
    come before it. *)
Lemma sorted_by_total l :
  ForallOrdPairs (fun y x => Spec.compares lt x y) l -> exists s, sorted_by lt l = Returned s.
Proof.
  intros H. unfold sorted_by.
  destruct (insert_loop_total l [] (Forall_true _ _ (fun _ => Forall_nil_2 _)) H)
    as [rs ->].
  cbn. eauto.
Qed.

End Sorting.

Section Dashboard.

Local Arguments Str.take : simpl never.
Local Arguments Nat.ltb : simpl never.




(** *** Records of text *)

Lemma text_field_get k d s0 :
  Spec.text_field k d -> Spec.is_text (default (PStr s0) (dict_get k d)).
Proof.
  unfold Spec.text_field, Spec.is_text. destruct (dict_get k d) as [[]|]; simpl; by eauto.
Qed.

Lemma for_each_total {X S} (P : X -> Prop) (body : S -> X -> outcome S) l s :
  (forall s a, P a -> exists s', body s a = Returned s') ->
  Forall P l -> exists s', for_each body l s = Returned s'.
Proof.
  intros Hb. revert s. induction l as [|a l IH]; intros s H; cbn; [eauto|].
  apply Forall_cons in H as [Ha H]. destruct (Hb s a Ha) as [s1 ->]. cbn.
  by apply IH.
Qed.

Lemma map_out_total {X Y} (P : X -> Prop) (Q : Y -> Prop) (f : X -> outcome Y) l :
  (forall a, P a -> exists b, f a = Returned b /\ Q b) ->
  Forall P l -> exists bs, map_out f l = Returned bs /\ Forall Q bs.
Proof.
  intros Hf. induction l as [|a l IH]; intros H; cbn; [eauto|].
  apply Forall_cons in H as [Ha H]. destruct (Hf a Ha) as (b & -> & Hb).
  destruct (IH H) as (bs & -> & Hbs). cbn. eauto.
Qed.

Lemma group_add_text c p g :
  Spec.is_text c -> Spec.text_record p -> Forall Spec.text_group g ->
  Forall Spec.text_group (group_add c p g).
Proof.
  intros Hc Hp. induction g as [|[k ps] g IH]; simpl; intros H.
  - apply Forall_singleton. split; [done|]. by apply Forall_singleton.
  - apply Forall_cons in H as [[H1 H1'] H2].
    destruct (py_eq k c); apply Forall_cons; split.
    + split; [done|]. simpl. apply Forall_app. split; [done|].
      by apply Forall_singleton.
    + done.
    + by split.
    + by apply IH.
Qed.

Lemma group_step_text g p :
  Spec.text_record p -> Forall Spec.text_group g ->
  exists g', group_step g p = Returned g' /\ Forall Spec.text_group g'.
Proof.
  intros Hp Hg. destruct p as [| | | | |d]; try done.
  destruct Hp as (Hc & Hn & Hd).
  destruct (text_field_get "category" d "Uncategorized" Hc) as [c Hcat].
  unfold group_step, py_get. cbn. rewrite Hcat. cbn.
  eexists. split; [done|]. apply group_add_text; [by eexists| |done].
  by repeat split.
Qed.

Lemma group_by_category_text prompts g0 :
  Forall Spec.text_record prompts -> Forall Spec.text_group g0 ->
  exists g, for_each group_step prompts g0 = Returned g /\ Forall Spec.text_group g.
Proof.
  revert g0. induction prompts as [|p l IH]; intros g0 Hl Hg; cbn; [eauto|].
  apply Forall_cons in Hl as [Hp Hl].
  destruct (group_step_text g0 p Hp Hg) as (g1 & -> & Hg1). cbn. by apply IH.
Qed.

(** Groups of text with distinct categories can be sorted. *)
Lemma text_groups_ordered g :
  Forall Spec.text_group g -> Spec.keys_distinct (map fst g) ->
  ForallOrdPairs (fun y x => Spec.compares item_lt x y) g.
Proof.
  induction g as [|[k ps] g IH]; simpl; intros Ht Hd; [constructor|].
  apply Forall_cons in Ht as [[[s Hk] _] Ht]. destruct Hd as [Hk' Hd].
  simpl in Hk. subst k.
  constructor; [|by apply IH].
  apply List.Forall_forall. intros [k' ps'] Hin.
  rewrite Forall_forall in Ht.
  destruct (Ht (k', ps')) as [[s' Hs'] _]; [by apply list_elem_of_In|].
  simpl in Hs'. subst k'.
  rewrite Forall_forall in Hk'.
  destruct (Hk' (PStr s')) as [_ Hne].
  { apply list_elem_of_fmap. exists (PStr s', ps'). split; [done|].
    by apply list_elem_of_In. }
  unfold Spec.compares, item_lt. cbn [fst snd]. rewrite Hne. cbn. eauto.
Qed.

Lemma sorted_by_name_text ps :
  Forall Spec.text_record ps ->
  exists s, sorted_by_name ps = Returned s /\ Forall Spec.text_record s.
Proof.
  intros Hps. unfold sorted_by_name.
  destruct (map_out_total Spec.text_record
              (fun kp : pyval * pyval => Spec.is_text kp.1 /\ Spec.text_record kp.2)
              (fun p => k ← py_get p "name" (PStr ""); Returned (k, p)) ps)
    as (keyed & -> & Hk); [|done|].
  { intros [| | | | |d] Hp; try done. pose proof Hp as (_ & Hn & _).
    destruct (text_field_get "name" d "" Hn) as [n Hname].
    unfold py_get. cbn. rewrite Hname. eexists. split; [done|].
    split; [by eexists|done]. }
  cbn.
  destruct (sorted_by_total (fun a b : pyval * pyval => py_lt a.1 b.1) keyed)
    as [s Hs].
  { clear -Hk. induction keyed as [|[k p] keyed IH]; [constructor|].
    apply Forall_cons in Hk as [[[n Hn] _] Hk]. simpl in Hn. subst k.
    constructor; [|by apply IH].
    apply List.Forall_forall. intros [k' p'] Hin.
    rewrite Forall_forall in Hk.
    destruct (Hk (k', p')) as [[n' Hn'] _]; [by apply list_elem_of_In|].
    simpl in Hn'. subst k'. unfold Spec.compares. cbn. eauto. }
  rewrite Hs. cbn. eexists. split; [done|].
  apply sorted_by_perm in Hs.
  apply Forall_fmap. rewrite Hs.
  eapply Forall_impl; [exact Hk|]. by intros [k p] [_ Hp].
Qed.




End Dashboard.

Section DashboardCounts.



Lemma sample_prompts_text : Forall Spec.text_record Spec.sample_prompts.
Proof. repeat constructor. Qed.


(** The dashboard of the three sample records: three prompts in two
    categories. *)
Example dashboard_of_sample_prompts :
  exists out,
    create_prompt_editor_view (PList Spec.sample_prompts) = Returned out
    /\ Str.contains
         (Str.cat ["- Total prompts: 3"; Str.nl; "- Categories: 2"; Str.nl;
                   "  - Uncategorized: 1 prompts"; Str.nl;
                   "  - travel: 2 prompts"; Str.nl]) out = true.
Proof. eexists. split; vm_compute; reflexivity. Qed.

End DashboardCounts.

(** * Further properties of the code *)

Section Dictionaries.

Context {V : Type}.
Implicit Types (d : list (string * V)) (k : string) (v : V).

Lemma dict_get_set_eq k v d : dict_get k (dict_set k v d) = Some v.
Proof.
  induction d as [|[k' v'] d IH]; simpl.
  - by rewrite decide_True.
  - destruct (decide (k' = k)) as [->|Hne]; simpl.
    + by rewrite decide_True.
    + by rewrite decide_False.
Qed.

Lemma dict_get_set_ne k k' v d :
  k <> k' -> dict_get k' (dict_set k v d) = dict_get k' d.
Proof.
  intros Hne. induction d as [|[k0 v0] d IH]; simpl.
  - by rewrite decide_False.
  - destruct (decide (k0 = k)) as [->|Hne0]; simpl.
    + by rewrite !decide_False.
    + destruct (decide (k0 = k')); [done|apply IH].
Qed.

Lemma dict_set_fresh k v d :
  dict_get k d = None -> dict_set k v d = d ++ [(k, v)].
Proof.
  induction d as [|[k0 v0] d IH]; simpl; [done|].
  destruct (decide (k0 = k)); [done|]. intros H. by rewrite IH.
Qed.

(** Storing one value under each key of a list. *)
Lemma dict_get_set_all ks k v d :
  dict_get k (fold_left (fun d a => dict_set a v d) ks d)
  = if decide (k ∈ ks) then Some v else dict_get k d.
Proof.
  revert d. induction ks as [|a ks IH]; intros d; simpl.
  - destruct (decide (k ∈ [])) as [Hin|_]; [|done]. by apply elem_of_nil in Hin.
  - rewrite IH. destruct (decide (k ∈ ks)) as [Hin|Hnin].
    + destruct (decide (k ∈ a :: ks)) as [_|Hn]; [done|].
      exfalso. apply Hn. by right.
    + destruct (decide (a = k)) as [->|Hne].
      * destruct (decide (k ∈ k :: ks)) as [_|Hn]; [apply dict_get_set_eq|].
        exfalso. apply Hn. by left.
      * destruct (decide (k ∈ a :: ks)) as [Hin|_]; [|by apply dict_get_set_ne].
        apply elem_of_cons in Hin as [->|?]; done.
Qed.

End Dictionaries.

Section Registry.

(** X1. After [register_command], the name and every alias find the
    command that was registered, every other key finds what it found
    before, and the pending entries are as they were. *)
Theorem register_command_lookup name description handler usage aliases st k :
  let st' := register_command name description handler usage aliases st in
  let command := {| name := name; description := description; handler := handler;
                    usage := usage;
                    SlashCommandHandler.aliases := default [] aliases |} in
  (k = name \/ k ∈ default [] aliases -> dict_get k (commands st') = Some command)
  /\ (k <> name -> k ∉ default [] aliases ->
      dict_get k (commands st') = dict_get k (commands st))
  /\ pending_format_requests st' = pending_format_requests st.
Proof.
  simpl. rewrite dict_get_set_all. split; [|split; [|done]].
  - intros [->|Hin].
    + destruct (decide (name ∈ default [] aliases)); [done|apply dict_get_set_eq].
    + by rewrite decide_True.
  - intros Hn Ha. rewrite decide_False by done. by apply dict_get_set_ne.
Qed.

Lemma register_command_ok name description handler usage aliases st :
  Spec.registry_ok (commands st) ->
  Spec.registry_ok
    (commands (register_command name description handler usage aliases st)).
Proof.
  intros Hok k cmd.
  destruct (register_command_lookup name description handler usage aliases st k)
    as (Hnew & Hold & _).
  destruct (decide (k = name)) as [->|Hn].
  - rewrite Hnew by (by left). intros [= <-]. by left.
  - destruct (decide (k ∈ default [] aliases)) as [Hin|Hnin].
    + rewrite Hnew by (by right). intros [= <-]. by right.
    + rewrite Hold by done. apply Hok.
Qed.

(** X2. [register_command] keeps the registry such that every key is the
    name or an alias of the command under it; the registry of [__init__]
    is such. *)
Theorem registry_keys_are_names_or_aliases :
  (forall name description handler usage aliases st,
     Spec.registry_ok (commands st) ->
     Spec.registry_ok
       (commands (register_command name description handler usage aliases st)))
  /\ Spec.registry_ok (commands init).
Proof.
  split; [apply register_command_ok|].
  unfold init, _register_default_commands.
  repeat apply register_command_ok. by intros k cmd.
Qed.

End Registry.

Section Help.

Lemma dict_get_app_None {V} k (d1 d2 : list (string * V)) :
  dict_get k d1 = None -> dict_get k (d1 ++ d2) = dict_get k d2.
Proof.
  induction d1 as [|[k0 v0] d1 IH]; simpl; [done|].
  destruct (decide (k0 = k)); [done|apply IH].
Qed.

Lemma dict_get_None_keys {V} k (d : list (string * V)) :
  dict_get k d = None <-> k ∉ map fst d.
Proof.
  induction d as [|[k0 v0] d IH]; simpl.
  - split; [intros _; apply not_elem_of_nil|done].
  - destruct (decide (k0 = k)) as [->|Hne].
    + split; [done|]. intros H. exfalso. apply H. by left.
    + rewrite IH, not_elem_of_cons. split; [by intros Hn|by intros [_ Hn]].
Qed.

(** The invariant of the loop of [unique_commands]. *)
Lemma unique_commands_loop cs u :
  NoDup (map fst u) ->
  Forall (fun kc : string * SlashCommand => kc.1 = name kc.2) u ->
  let u' := fold_left (fun u (nc : string * SlashCommand) => if dict_has (name nc.2) u then u
                                   else dict_set (name nc.2) nc.2 u) cs u in
  NoDup (map fst u')
  /\ Forall (fun kc : string * SlashCommand => kc.1 = name kc.2) u'
  /\ (forall nc : string * SlashCommand, nc ∈ cs -> name nc.2 ∈ map fst u')
  /\ (forall k, k ∈ map fst u -> k ∈ map fst u').
Proof.
  revert u. induction cs as [|[n c] cs IH]; intros u Hnd Hf; simpl.
  - split; [done|]. split; [done|]. split; [|done].
    intros nc Hin. by apply elem_of_nil in Hin.
  - unfold dict_has. destruct (dict_get (name c) u) as [c0|] eqn:Hg; simpl.
    + destruct (IH u Hnd Hf) as (H1 & H2 & H3 & H4).
      split; [done|]. split; [done|]. split; [|done].
      intros nc [->|Hin]%elem_of_cons; [|by apply H3]. simpl. apply H4.
      destruct (decide (name c ∈ map fst u)) as [|Hn]; [done|].
      apply dict_get_None_keys in Hn. congruence.
    + rewrite (dict_set_fresh _ _ _ Hg).
      destruct (IH (u ++ [(name c, c)])) as (H1 & H2 & H3 & H4).
      { rewrite map_app. simpl. apply NoDup_app. split; [done|].
        split; [|apply NoDup_singleton].
        intros k Hk ->%list_elem_of_singleton.
        by apply dict_get_None_keys in Hg. }
      { apply Forall_app. split; [done|]. by apply Forall_singleton. }
      split; [done|]. split; [done|]. split.
      * intros nc [->|Hin]%elem_of_cons; [|by apply H3]. simpl. apply H4.
        rewrite map_app. apply elem_of_app. right. simpl. by left.
      * intros k Hk. apply H4. rewrite map_app. apply elem_of_app. by left.
Qed.

(** X3. The listing [_handle_help] builds has no name twice, files each
    command under its own name, and holds the name of every command of the
    registry. *)
Theorem unique_commands_once cs :
  NoDup (map fst (unique_commands cs))
  /\ Forall (fun kc : string * SlashCommand => kc.1 = name kc.2) (unique_commands cs)
  /\ (forall k cmd, (k, cmd) ∈ cs -> name cmd ∈ map fst (unique_commands cs)).
Proof.
  destruct (unique_commands_loop cs [] (NoDup_nil_2) (Forall_nil_2 _))
    as (H1 & H2 & H3 & _).
  split; [done|]. split; [done|]. intros k cmd Hin. by apply (H3 (k, cmd)).
Qed.

End Help.

Section StatePreservation.

Lemma call_handler_commands h st subcommand args :
  commands (call_handler h st subcommand args).2 = commands st.
Proof.
  unfold call_handler.
  destruct h; unfold _handle_travel_init, _handle_prompts, _handle_servers,
    _handle_connect, _handle_tools, _handle_help, _handle_create_prompt,
    _travel_custom_init;
    repeat case_match; simplify_eq; reflexivity.
Qed.

End StatePreservation.

Section Dispatch.

(** X4. [execute_command] leaves the registry as it is and always returns
    a text. *)
Theorem execute_command_keeps_registry input st :
  commands (execute_command input st).2 = commands st
  /\ exists text, (execute_command input st).1 = Some text.
Proof.
  unfold execute_command.
  destruct (parse_command input) as [[command_name subcommand] args].
  destruct (command_name ≫= _) as [command|]; [|by eauto].
  pose proof (call_handler_commands (handler command) st subcommand
                (default [] args)) as Hc.
  destruct (call_handler _ _ _ _) as [[result|e] st']; simpl in Hc.
  - destruct (_ && _); simpl; eauto.
  - simpl. eauto.
Qed.

Variable json_loads : string -> outcome pyval.

(** X7. [format_command_result] leaves the registry and the entries of all
    other keys as they are. *)
Theorem format_command_result_frame key raw st :
  commands (format_command_result json_loads key raw st).2 = commands st
  /\ forall key', key' <> key ->
       pending_format_requests (format_command_result json_loads key raw st).2
         !! key'
       = pending_format_requests st !! key'.
Proof.
  unfold format_command_result.
  destruct (pending_format_requests st !! key); simpl; [|done].
  split; [done|]. intros key' Hne. by apply lookup_delete_ne.
Qed.

Lemma sub_is_true s subcommand : sub_is s subcommand = true -> subcommand = Some s.
Proof. unfold sub_is. by case_decide. Qed.

Lemma sub_or_list_default subcommand :
  negb (sub_truthy subcommand) || sub_is "list" subcommand = true ->
  sub_or_list subcommand = "list".
Proof.
  unfold sub_or_list. destruct (sub_truthy subcommand) eqn:Ht; simpl; [|done].
  intros H%sub_is_true. by subst.
Qed.

Lemma sub_or_list_is s subcommand :
  s <> "" -> sub_is s subcommand = true -> sub_or_list subcommand = s.
Proof.
  intros Hs H%sub_is_true. subst. unfold sub_or_list. simpl.
  by destruct s.
Qed.

(** [_handle_prompts] changes nothing when it returns a directive, and it
    returns one for seven subcommands only. *)
Lemma handle_prompts_directive st subcommand args result st' :
  _handle_prompts st subcommand args = (result, st') ->
  Str.startswith directive_prefix result = true ->
  st' = st /\ sub_or_list subcommand ∈ Spec.directive_subcommands.
Proof.
  clear json_loads. unfold _handle_prompts. intros H Hd.
  repeat case_match; simplify_eq;
    try (vm_compute in Hd; discriminate Hd);
    (split; [reflexivity|]);
    repeat match goal with
    | H : negb _ || sub_is "list" _ = true |- _ =>
        rewrite (sub_or_list_default _ H)
    | H : sub_is ?s _ = true |- _ =>
        rewrite (sub_or_list_is s _ ltac:(discriminate) H)
    end; unfold Spec.directive_subcommands; set_solver.
Qed.

Lemma execute_command_registered input st token subcommand args command result st' :
  parse_command input = (Some token, subcommand, Some args) ->
  dict_get token (commands st) = Some command ->
  call_handler (handler command) st subcommand args = (Returned result, st') ->
  execute_command input st
  = if sub_is "prompts" (Some token) && Str.startswith directive_prefix result
    then (Some result,
          set_pending input (Str.cat [token; ":"; sub_or_list subcommand]) st')
    else (Some result, st').
Proof.
  intros Hp Hc Hh. unfold execute_command. rewrite Hp. cbv beta iota zeta.
  change (Some token ≫= _) with (dict_get token (commands st)).
  rewrite Hc. change (default [] (Some args)) with args. by rewrite Hh.
Qed.

Lemma clear_set_pending key value st :
  pending_format_requests st !! key = None ->
  clear_pending key (set_pending key value st) = st.
Proof.
  intros H. destruct st as [cs p]. unfold clear_pending, set_pending. simpl in *.
  by rewrite delete_insert_id.
Qed.

Lemma split_prompts_entry sub :
  sub ∈ Spec.directive_subcommands ->
  Str.split_on Str.c_colon (Str.cat ["prompts"; ":"; sub]) = ["prompts"; sub].
Proof.
  unfold Spec.directive_subcommands. intros H.
  repeat (apply elem_of_cons in H as [->|H]; [reflexivity|]).
  by apply elem_of_nil in H.
Qed.

(** X8. When [/prompts ...] gives a directive under an input that is not
    pending, resolving that input with any payload returns what
    [_format_prompt_result] makes of the payload for the subcommand, and
    puts the state back as it was before the command. *)
Theorem prompts_directive_round_trip
    input st subcommand args command result st' raw :
  parse_command input = (Some "prompts", subcommand, Some args) ->
  dict_get "prompts" (commands st) = Some command ->
  handler command = h_prompts ->
  _handle_prompts st subcommand args = (result, st') ->
  Str.startswith directive_prefix result = true ->
  pending_format_requests st !! input = None ->
  format_command_result json_loads input raw (execute_command input st).2
  = (Returned (_format_prompt_result json_loads (sub_or_list subcommand) raw), st).
Proof.
  intros Hp Hc Hh Hr Hd Hn.
  destruct (handle_prompts_directive _ _ _ _ _ Hr Hd) as [-> Hsub].
  rewrite (execute_command_registered input st "prompts" subcommand args
             command result st Hp Hc).
  2:{ rewrite Hh. unfold call_handler. by rewrite Hr. }
  change (sub_is "prompts" (Some "prompts")) with true. rewrite Hd.
  cbn [andb snd]. unfold format_command_result.
  cbn [set_pending pending_format_requests]. rewrite lookup_insert_eq.
  rewrite (split_prompts_entry _ Hsub).
  rewrite (clear_set_pending _ _ _ Hn). reflexivity.
Qed.

Lemma travel_entry_resolves key value st raw :
  value ∈ Spec.travel_entries ->
  exists text,
    (format_command_result json_loads key raw (set_pending key value st)).1
    = Returned text.
Proof.
  unfold Spec.travel_entries, format_command_result. intros H.
  cbn [set_pending pending_format_requests]. rewrite lookup_insert_eq.
  repeat (apply elem_of_cons in H as [->|H]; [eexists; reflexivity|]).
  by apply elem_of_nil in H.
Qed.

(** X9. [_handle_travel_init] either returns a directive and stores one
    entry, with one of six values, whose resolution returns a text for
    every payload; or it returns another text and changes nothing. *)
Theorem travel_init_entries st subcommand args :
  let r := _handle_travel_init st subcommand args in
  (Str.startswith directive_prefix r.1 = true
   /\ exists key value,
        r.2 = set_pending key value st
        /\ value ∈ Spec.travel_entries
        /\ forall raw, exists text,
             (format_command_result json_loads key raw r.2).1 = Returned text)
  \/ (Str.startswith directive_prefix r.1 = false /\ r.2 = st).
Proof.
  unfold _handle_travel_init, _travel_custom_init.
  repeat case_match; simpl;
    first
      [ right; split; [vm_compute; reflexivity|reflexivity]
      | left; split; [vm_compute; reflexivity|];
        eexists _, _; split; [reflexivity|];
        split; [unfold Spec.travel_entries; set_solver|];
        intros raw; apply travel_entry_resolves;
        unfold Spec.travel_entries; set_solver ].
Qed.

(** X10. [_travel_custom_init] on a non-empty list of components returns
    a directive exactly when one of them, in lower case, is a known
    component. *)
Theorem travel_custom_known_component components st :
  components <> [] ->
  Str.startswith directive_prefix (_travel_custom_init components st).1 = true
  <-> exists c, c ∈ components /\ dict_has (Str.lower c) component_prompts = true.
Proof.
  intros Hne. unfold _travel_custom_init.
  destruct components as [|c0 cs]; [done|]. clear Hne.
  set (components := c0 :: cs).
  destruct (omap (fun comp => dict_get (Str.lower comp) component_prompts) components)
    as [|p ps] eqn:Ho.
  - split; [intros H; vm_compute in H; discriminate H|].
    intros (c & Hin & Hc). exfalso.
    unfold dict_has in Hc.
    destruct (dict_get (Str.lower c) component_prompts) as [v|] eqn:Hg; [|done].
    assert (v ∈ omap (fun comp => dict_get (Str.lower comp) component_prompts)
                     components) as Hv.
    { apply list_elem_of_omap. eauto. }
    rewrite Ho in Hv. by apply elem_of_nil in Hv.
  - split; [intros _|intros _; vm_compute; reflexivity].
    assert (p ∈ omap (fun comp => dict_get (Str.lower comp) component_prompts)
                     components) as Hv by (rewrite Ho; left).
    apply list_elem_of_omap in Hv as (c & Hin & Hc).
    exists c. split; [done|]. unfold dict_has. by rewrite Hc.
Qed.

End Dispatch.

Section Tokens.

Lemma no_space_app s t :
  Spec.no_space (s +:+ t) = Spec.no_space s && Spec.no_space t.
Proof.
  induction s as [|c s IH]; [done|].
  change (String c s +:+ t) with (String c (s +:+ t)). simpl.
  rewrite IH. by rewrite andb_assoc.
Qed.

Lemma str_app_not_empty s c : s +:+ String c "" <> "".
Proof. by destruct s. Qed.

(** The tokens [split] gives. *)
Lemma split_go_tokens tok s :
  (forall t, tok = Some t -> Spec.is_token t) ->
  Forall Spec.is_token (Str.split_go tok s).
Proof.
  revert tok. induction s as [|c s IH]; intros tok Ht; simpl.
  - destruct tok; [|done]. apply Forall_singleton. by apply Ht.
  - destruct (Str.isspace c) eqn:Hc.
    + destruct tok.
      * apply Forall_cons. split; [by apply Ht|]. by apply IH.
      * by apply IH.
    + apply IH. intros t [= <-]. split; [apply str_app_not_empty|].
      rewrite no_space_app. simpl. rewrite Hc. simpl. rewrite andb_true_r.
      destruct tok as [t|]; [|done]. by apply Ht.
Qed.

Lemma split_ws_tokens s : Forall Spec.is_token (Str.split_ws s).
Proof. apply split_go_tokens. by intros t. Qed.

Lemma lower_char_space c : Str.isspace (Str.lower_char c) = Str.isspace c.
Proof. by destruct c as [[] [] [] [] [] [] [] []]. Qed.

Lemma lower_char_idemp c : Str.lower_char (Str.lower_char c) = Str.lower_char c.
Proof. by destruct c as [[] [] [] [] [] [] [] []]. Qed.

Lemma lower_idemp s : Str.lower (Str.lower s) = Str.lower s.
Proof. induction s as [|c s IH]; simpl; [done|]. by rewrite lower_char_idemp, IH. Qed.

Lemma lower_token s : Spec.is_token s -> Spec.is_token (Str.lower s).
Proof.
  intros [Hne Hs]. split; [by destruct s|].
  clear Hne. induction s as [|c s IH]; simpl in *; [done|].
  rewrite lower_char_space. apply andb_true_iff in Hs as [-> Hs]. by apply IH.
Qed.

(** X5. The command name [parse_command] returns is in lower case, and the
    name, the subcommand and the arguments are tokens: non-empty and free
    of whitespace. *)
Theorem parse_command_tokens input command_name subcommand args :
  parse_command input = (Some command_name, subcommand, Some args) ->
  Str.lower command_name = command_name
  /\ Spec.is_token command_name
  /\ (forall s, subcommand = Some s -> Spec.is_token s)
  /\ Forall Spec.is_token args.
Proof.
  unfold parse_command.
  destruct (Str.startswith_char Str.c_slash input); simpl; [|done].
  pose proof (split_ws_tokens (Str.strip (Str.tail input))) as Ht.
  destruct (Str.split_ws (Str.strip (Str.tail input))) as [|p0 rest]; [done|].
  apply Forall_cons in Ht as [H0 Hrest].
  intros [= <- <- <-].
  split; [apply lower_idemp|]. split; [by apply lower_token|].
  destruct rest as [|p1 rest]; [by split|].
  apply Forall_cons in Hrest as [H1 Hrest]. split; [by intros s [= <-]|].
  by destruct rest.
Qed.

(** *** From tokens back to tokens *)

Lemma split_go_read tok t s :
  Spec.no_space t = true ->
  t <> "" ->
  Str.split_go tok (t +:+ s) = Str.split_go (Some (default "" tok +:+ t)) s.
Proof.
  revert tok. induction t as [|c t IH]; intros tok Hs Hne; [done|].
  change (String c t +:+ s) with (String c (t +:+ s)). simpl in *.
  apply andb_true_iff in Hs as [Hc Hs]. apply negb_true_iff in Hc. rewrite Hc.
  destruct t as [|c' t'].
  - simpl. done.
  - rewrite IH by done. simpl. by rewrite str_app_assoc.
Qed.

Lemma split_go_blank t s :
  Str.split_go (Some t) (String " " s) = t :: Str.split_go None s.
Proof. reflexivity. Qed.

Lemma split_ws_join tokens :
  Forall Spec.is_token tokens -> Str.split_ws (Str.join " " tokens) = tokens.
Proof.
  unfold Str.split_ws. induction tokens as [|t ts IH]; intros H; [done|].
  apply Forall_cons in H as [[Hne Hs] Hts].
  destruct ts as [|t' ts'].
  - change (Str.join " " [t]) with t. rewrite <- (str_app_nil_r t) at 1.
    by rewrite split_go_read.
  - change (Str.join " " (t :: t' :: ts'))
      with (t +:+ String " " (Str.join " " (t' :: ts'))).
    rewrite split_go_read by done.
    change (default "" None +:+ t) with t.
    rewrite split_go_blank. by rewrite IH.
Qed.

Lemma rstrip_no_space t : Spec.no_space t = true -> Str.rstrip t = t.
Proof.
  induction t as [|c t IH]; simpl; [done|].
  intros [Hc Hs]%andb_true_iff. apply negb_true_iff in Hc. rewrite Hc.
  simpl. by rewrite IH.
Qed.

Lemma rstrip_app a b :
  Str.rstrip b <> "" -> Str.rstrip (a +:+ b) = a +:+ Str.rstrip b.
Proof.
  intros Hb. induction a as [|c a IH]; [done|].
  change (String c a +:+ b) with (String c (a +:+ b)). simpl. rewrite IH.
  destruct (a +:+ Str.rstrip b) eqn:He.
  - destruct a as [|c0 a0].
    + change ("" +:+ Str.rstrip b) with (Str.rstrip b) in He. done.
    + change (String c0 a0 +:+ Str.rstrip b)
        with (String c0 (a0 +:+ Str.rstrip b)) in He. done.
  - simpl. rewrite andb_false_r.
    change (String c a +:+ Str.rstrip b) with (String c (a +:+ Str.rstrip b)).
    by rewrite He.
Qed.

Lemma rstrip_join tokens :
  Forall Spec.is_token tokens ->
  tokens <> [] ->
  Str.rstrip (Str.join " " tokens) = Str.join " " tokens
  /\ Str.join " " tokens <> "".
Proof.
  induction tokens as [|t ts IH]; intros H Hne; [done|].
  apply Forall_cons in H as [[Ht Hs] Hts].
  destruct ts as [|t' ts'].
  - simpl. split; [by apply rstrip_no_space|done].
  - change (Str.join " " (t :: t' :: ts'))
      with (t +:+ " " +:+ Str.join " " (t' :: ts')).
    destruct (IH Hts) as [IH1 IH2]; [done|].
    split; [|by destruct t].
    rewrite rstrip_app.
    + f_equal. rewrite (rstrip_app " "); [by rewrite IH1|by rewrite IH1].
    + rewrite (rstrip_app " "); [done|by rewrite IH1].
Qed.

Lemma strip_join tokens :
  Forall Spec.is_token tokens ->
  Str.strip (Str.join " " tokens) = Str.join " " tokens.
Proof.
  intros H. destruct tokens as [|t ts]; [done|].
  unfold Str.strip.
  assert (Str.lstrip (Str.join " " (t :: ts)) = Str.join " " (t :: ts)) as ->.
  { apply Forall_cons in H as [[Hne Hs] _].
    destruct t as [|c t]; [done|]. simpl in Hs.
    apply andb_true_iff in Hs as [Hc _]. apply negb_true_iff in Hc.
    destruct ts; simpl; by rewrite Hc. }
  by apply rstrip_join.
Qed.

(** X6. The prefix followed by tokens joined by single blanks parses to the
    first token in lower case, the second as the subcommand and the others,
    in order, as the arguments. *)
Theorem parse_command_of_tokens command rest :
  Forall Spec.is_token (command :: rest) ->
  parse_command (String Str.c_slash (Str.join " " (command :: rest)))
  = (Some (Str.lower command), head rest, Some (tail rest)).
Proof.
  intros H. unfold parse_command.
  assert (Str.startswith_char Str.c_slash
            (String Str.c_slash (Str.join " " (command :: rest))) = true) as ->
    by (unfold Str.startswith_char; by rewrite decide_True).
  cbn [negb Str.tail].
  rewrite strip_join, split_ws_join by done.
  by destruct rest as [|? [|? ?]].
Qed.

End Tokens.

Section Truncation.

Lemma take_all n s : (String.length s <= n)%nat -> Str.take n s = s.
Proof.
  revert n. induction s as [|c s IH]; intros [|n] H; simpl in *; try done; try lia.
  rewrite IH; [done|lia].
Qed.

Lemma take_length n s :
  (n <= String.length s)%nat -> String.length (Str.take n s) = n.
Proof.
  revert n. induction s as [|c s IH]; intros [|n] H; simpl in *; try done; try lia.
  rewrite IH; [done|lia].
Qed.

Local Arguments Str.take : simpl never.
Local Arguments Nat.ltb : simpl never.

(** X11. A dashboard row shows a description of at most 50 characters
    as it is, and a longer one as its first 50 characters followed by three
    dots. *)
Theorem table_row_description category d s :
  dict_get "description" d = Some (PStr s) ->
  let name := py_str (default (PStr "Unnamed") (dict_get "name" d)) in
  table_row category (PDict d)
  = Returned
      (Str.cat ["| "; py_str category; " | "; name; " | ";
                Spec.shown_description s; " | ";
                Str.cat ["[View](/prompts view "; name;
                         ") | [Edit](/prompts edit "; name; ")"];
                " |"; Str.nl])
  /\ ((String.length s <= 50)%nat -> Spec.shown_description s = s)
  /\ ((50 < String.length s)%nat ->
      Spec.shown_description s = Str.take 50 s +:+ "..."
      /\ String.length (Str.take 50 s) = 50%nat).
Proof.
  intros Hd. unfold Spec.shown_description. split; [|split].
  - unfold table_row, py_get. cbn. rewrite Hd. cbn.
    destruct (50 <? String.length s)%nat eqn:Hl; cbn; [done|].
    apply Nat.ltb_ge in Hl. by rewrite take_all.
  - intros Hl. apply Nat.ltb_ge in Hl. by rewrite Hl.
  - intros Hl. split; [|apply take_length; lia].
    apply Nat.ltb_lt in Hl. by rewrite Hl.
Qed.

End Truncation.

Section Tables.

Lemma has_char_lstrip c s :
  Str.has_char c (Str.lstrip s) = true -> Str.has_char c s = true.
Proof.
  induction s as [|c0 s IH]; simpl; [done|].
  destruct (Str.isspace c0); [|done].
  intros H. rewrite (IH H). by rewrite orb_true_r.
Qed.

Lemma has_char_rstrip c s :
  Str.has_char c (Str.rstrip s) = true -> Str.has_char c s = true.
Proof.
  induction s as [|c0 s IH]; simpl; [done|].
  destruct (Str.isspace c0 && Str.is_empty (Str.rstrip s)); simpl; [done|].
  intros [H|H]%orb_true_iff; [by rewrite H|].
  rewrite (IH H). by rewrite orb_true_r.
Qed.

Lemma has_char_first_line c sep s :
  Str.has_char c (hd "" (Str.split_on sep s)) = true -> Str.has_char c s = true.
Proof.
  induction s as [|c0 s IH]; simpl; [done|].
  destruct (decide (c0 = sep)); simpl; [done|].
  destruct (Str.split_on sep s) as [|t r]; simpl in *.
  - intros H. rewrite orb_false_r in H. by rewrite H.
  - intros [H|H]%orb_true_iff; [by rewrite H|].
    rewrite (IH H). by rewrite orb_true_r.
Qed.

Lemma cells_not_empty line : Forall (fun c => c <> "") (cells line).
Proof.
  unfold cells. apply Forall_fmap, Forall_forall. intros h Hin.
  apply list_elem_of_In, filter_In in Hin as [_ Hh]. simpl.
  by destruct (Str.strip h).
Qed.

Lemma dict_set_Forall {V} (P : string * V -> Prop) k v d :
  P (k, v) -> Forall P d -> Forall P (dict_set k v d).
Proof.
  intros Hkv. induction d as [|[k0 v0] d IH]; simpl; intros H.
  - by apply Forall_singleton.
  - apply Forall_cons in H as [H0 H].
    destruct (decide (k0 = k)) as [->|]; apply Forall_cons; split; auto.
Qed.

Lemma dict_of_pairs_Forall {V} (P : string * V -> Prop) pairs :
  Forall P pairs -> Forall P (dict_of_pairs pairs).
Proof.
  unfold dict_of_pairs. generalize (@nil (string * V)) (Forall_nil_2 P).
  induction pairs as [|[k v] pairs IH]; intros d Hd H; simpl; [done|].
  apply Forall_cons in H as [Hkv H]. apply IH; [|done].
  by apply dict_set_Forall.
Qed.

Lemma row_record_ok headers values :
  Forall (fun c => c <> "") headers -> Forall (fun c => c <> "") values ->
  Spec.is_table_record (row_record headers values).
Proof.
  intros Hh Hv. eexists. split; [reflexivity|].
  apply dict_of_pairs_Forall.
  revert values Hv. induction Hh as [|h hs Hh Hhs IH]; intros [|v vs] Hv;
    try apply Forall_nil_2.
  apply Forall_cons in Hv as [Hv Hvs]. apply Forall_cons. split; [|by apply IH].
  simpl. eauto.
Qed.

Lemma records_under_ok headers data_lines :
  Forall (fun c => c <> "") headers ->
  Forall Spec.is_table_record (Spec.records_under headers data_lines).
Proof.
  intros Hh. unfold Spec.records_under. apply Forall_fmap, Forall_forall.
  intros values Hin. apply list_elem_of_In, filter_In in Hin as [Hin _].
  apply in_map_iff in Hin as (line & <- & _). simpl.
  apply row_record_ok; [done|apply cells_not_empty].
Qed.

(** X12. [_parse_text_results] returns nothing for a text with no pipe, and
    each record it returns maps non-empty names to non-empty strings. *)
Theorem parse_text_results_records text :
  (Str.has_char Str.c_pipe text = false -> _parse_text_results text = [])
  /\ Forall Spec.is_table_record (_parse_text_results text).
Proof.
  unfold _parse_text_results, enumerate.
  destruct (Str.split_on Str.c_nl (Str.strip text)) as [|first lines] eqn:Hl;
    [done|].
  destruct (Str.has_char Str.c_pipe first) eqn:Hp.
  - split.
    + intros Hn. exfalso.
      assert (Str.has_char Str.c_pipe text = true); [|congruence].
      apply has_char_lstrip, has_char_rstrip.
      apply (has_char_first_line _ Str.c_nl). fold (Str.strip text).
      by rewrite Hl.
    + rewrite table_loop_without_header.
      destruct (List.filter is_table_line (first :: lines)); [done|].
      apply records_under_ok, cells_not_empty.
  - done.
Qed.

End Tables.

Section ErrorBlock.

Variable json_loads : string -> outcome pyval.

Lemma format_prompt_list_not_mapping v rest :
  (forall d, v <> PDict d) ->
  format_prompt_list (PList (v :: rest))
  = raise AttributeError ["'"; type_name v; "' object has no attribute 'get'"].
Proof.
  intros Hv. unfold format_prompt_list, group_by_category. cbn [truthy negb].
  cbn [py_iter for_each]. unfold group_step at 1.
  destruct v as [| | | | |d]; try reflexivity. by destruct (Hv d).
Qed.

(** X13. When the result of a [list], [dashboard] or [search] decodes to a
    list whose first item is not a mapping, [_format_prompt_result] returns
    the error block with the message of the [AttributeError] and the raw
    result. *)
Theorem prompt_rows_not_mappings sub result v rest :
  sub ∈ ["list"; "dashboard"; "search"] ->
  Spec.has_prompt_error_marker result = false ->
  Spec.has_error_pattern result = false ->
  json_loads result = Returned (PList (v :: rest)) ->
  (forall d, v <> PDict d) ->
  _format_prompt_result json_loads sub result
  = Str.cat ["‚ùå Error processing command result: ";
             Str.cat ["'"; type_name v; "' object has no attribute 'get'"];
             Str.nl; Str.nl; "Raw result: "; result].
Proof.
  intros Hs Hm He Hl Hv.
  unfold _format_prompt_result, format_prompt_result_body.
  unfold Spec.has_prompt_error_marker in Hm. rewrite Hm.
  rewrite (parse_db_results_decoded json_loads result _ He Hl).
  cbn [truthy negb andb].
  rewrite (format_prompt_list_not_mapping v rest Hv).
  repeat (apply elem_of_cons in Hs as [->|Hs]; [reflexivity|]).
  by apply elem_of_nil in Hs.
Qed.

End ErrorBlock.

Section ListView.

Lemma list_line_text prompt :
  Spec.text_record prompt -> exists l, list_line prompt = Returned l.
Proof.
  destruct prompt as [| | | | |d]; try done. intros _.
  unfold list_line, py_get. cbn. eauto.
Qed.

Lemma list_section_text out item :
  Spec.text_group item -> exists out', list_section out item = Returned out'.
Proof.
  destruct item as [c ps]. intros [_ Hps]. simpl in Hps. unfold list_section.
  destruct (sorted_by_name_text ps Hps) as (s & -> & Hs).
  rewrite bind_ret; cbv beta.
  destruct (for_each_total Spec.text_record
              (fun out prompt => l ← list_line prompt; Returned (out +:+ l)) s
              (Str.cat [out; "## "; py_str c; Str.nl; Str.nl])) as [o ->].
  { intros o p Hp. destruct (list_line_text p Hp) as [l ->]. cbn. eauto. }
  { done. }
  cbn. eauto.
Qed.

Lemma list_section_appends out item out' :
  list_section out item = Returned out' -> exists r, out' = out +:+ r.
Proof.
  destruct item as [c ps]. unfold list_section. intros H.
  apply bind_returned in H as (s & _ & H).
  apply bind_returned in H as (o & Ho & H). injection H as <-.
  eapply for_each_appends in Ho as [r ->].
  - exists ((Str.cat ["## "; py_str c; Str.nl; Str.nl] +:+ r) +:+ Str.nl).
    change (Str.cat [out; "## "; py_str c; Str.nl; Str.nl])
      with (out +:+ Str.cat ["## "; py_str c; Str.nl; Str.nl]).
    by rewrite !str_app_assoc.
  - intros s0 a s0' Hb. apply bind_returned in Hb as (l & _ & Hb).
    injection Hb as <-. eauto.
Qed.

(** X14. For a non-empty sequence of records whose category, name and
    description are strings where present, the list view returns its title
    followed by the sections. *)
Theorem format_prompt_list_text prompts :
  prompts <> [] ->
  Forall Spec.text_record prompts ->
  exists body,
    format_prompt_list (PList prompts)
    = Returned (Str.cat ["# Available Prompts"; Str.nl; Str.nl] +:+ body).
Proof.
  intros Hne Hp. unfold format_prompt_list.
  assert (truthy (PList prompts) = true) as -> by (by destruct prompts).
  cbn [negb]. change (py_iter (PList prompts)) with (Returned prompts).
  rewrite bind_ret; cbv beta.
  destruct (group_by_category_text prompts [] Hp (Forall_nil_2 _))
    as (g & Hg & Ht).
  fold (group_by_category prompts) in Hg. rewrite Hg, bind_ret; cbv beta.
  apply group_by_category_partition in Hg as (_ & _ & Hd & _).
  destruct (sorted_by_total item_lt g (text_groups_ordered g Ht Hd)) as [s Hs].
  fold (sorted_items g) in Hs. rewrite Hs, bind_ret; cbv beta.
  destruct (for_each_total Spec.text_group list_section s
              (Str.cat ["# Available Prompts"; Str.nl; Str.nl])) as [o Ho].
  { intros o item. apply list_section_text. }
  { apply sorted_by_perm in Hs. by rewrite Hs. }
  rewrite Ho.
  apply (for_each_appends _ _ _ _ list_section_appends) in Ho as [r ->].
  eauto.
Qed.

End ListView.


Section Aliases.

(** X15. Through the aliases [p] and [prompt], [execute_command] returns
    the text of [_handle_prompts] and leaves the state as that handler left
    it: for a directive, which leaves the state unchanged, nothing is
    recorded under the input. *)
Theorem prompts_alias_records_nothing input st alias subcommand args :
  alias ∈ ["p"; "prompt"] ->
  commands st = commands init ->
  parse_command input = (Some alias, subcommand, Some args) ->
  execute_command input st
  = (Some (_handle_prompts st subcommand args).1,
     (_handle_prompts st subcommand args).2)
  /\ (Str.startswith directive_prefix (_handle_prompts st subcommand args).1 = true ->
      (execute_command input st).2 = st).
Proof.
  intros Ha Hc Hp.
  assert (He : execute_command input st
               = (Some (_handle_prompts st subcommand args).1,
                  (_handle_prompts st subcommand args).2)).
  { destruct (_handle_prompts st subcommand args) as [result st'] eqn:Hh.
    rewrite (execute_command_registered input st alias subcommand args
               Spec.prompts_command result st' Hp).
    - apply elem_of_cons in Ha as [->|Ha]; [reflexivity|].
      apply elem_of_cons in Ha as [->|Ha]; [reflexivity|].
      by apply elem_of_nil in Ha.
    - rewrite Hc.
      apply elem_of_cons in Ha as [->|Ha]; [reflexivity|].
      apply elem_of_cons in Ha as [->|Ha]; [reflexivity|].
      by apply elem_of_nil in Ha.
    - unfold call_handler. cbn [handler Spec.prompts_command]. by rewrite Hh. }
  split; [exact He|].
  intros Hd. rewrite He.
  destruct (_handle_prompts st subcommand args) as [result st'] eqn:Hh.
  by destruct (handle_prompts_directive _ _ _ _ _ Hh Hd) as [-> _].
Qed.

End Aliases.

(** ** The further properties at concrete inputs *)

Section Witnesses.

Lemma register_command_lookup_witness :
  dict_get "bye"
    (commands (register_command "quit" "Leave" h_help "/quit" (Some ["bye"]) init))
  = Some Spec.quit_command.
Proof.
  apply (proj1 (register_command_lookup "quit" "Leave" h_help "/quit"
                  (Some ["bye"]) init "bye")).
  right. simpl. left.
Defined.

Lemma registry_keys_are_names_or_aliases_witness :
  Spec.registry_ok
    (commands (register_command "quit" "Leave" h_help "/quit" (Some ["bye"]) init)).
Proof.
  exact (proj1 registry_keys_are_names_or_aliases "quit" "Leave" h_help "/quit"
           (Some ["bye"]) init (proj2 registry_keys_are_names_or_aliases)).
Defined.

Lemma unique_commands_once_witness :
  ("t", Spec.travel_command) ∈ commands init
  /\ "travel" ∈ map fst (unique_commands (commands init)).
Proof.
  assert (H : ("t", Spec.travel_command) ∈ commands init)
    by (vm_compute; right; left).
  split; [exact H|].
  exact (proj2 (proj2 (unique_commands_once (commands init))) "t" Spec.travel_command H).
Defined.

Lemma parse_command_tokens_witness :
  parse_command "/Prompts view  a b" = (Some "prompts", Some "view", Some ["a"; "b"])
  /\ Spec.is_token "prompts" /\ Forall Spec.is_token ["a"; "b"].
Proof.
  split; [reflexivity|].
  pose proof (parse_command_tokens "/Prompts view  a b" "prompts" (Some "view")
                ["a"; "b"] eq_refl) as (_ & H1 & _ & H2).
  split; [exact H1|exact H2].
Defined.

Lemma parse_command_of_tokens_witness :
  parse_command "/HELP travel" = (Some "help", Some "travel", Some []).
Proof.
  refine (parse_command_of_tokens "HELP" ["travel"] _).
  apply Forall_cons; split; [split; [discriminate|reflexivity]|].
  apply Forall_cons; split; [split; [discriminate|reflexivity]|].
  apply Forall_nil_2.
Defined.

Lemma format_command_result_frame_witness :
  let st := set_pending "/travel db" "travel:init"
              (set_pending "/prompts list" "prompts:list" init) in
  pending_format_requests
    (format_command_result Spec.sample_loads "/travel db" "42" st).2
    !! "/prompts list" = Some "prompts:list".
Proof.
  refine (eq_trans
    (proj2 (format_command_result_frame Spec.sample_loads "/travel db" "42"
              (set_pending "/travel db" "travel:init"
                 (set_pending "/prompts list" "prompts:list" init)))
           "/prompts list" _) _).
  - discriminate.
  - reflexivity.
Defined.

Lemma prompts_directive_round_trip_witness :
  format_command_result Spec.sample_loads "/prompts list" "[1]"
    (execute_command "/prompts list" init).2
  = (Returned (_format_prompt_result Spec.sample_loads "list" "[1]"), init).
Proof.
  exact (prompts_directive_round_trip Spec.sample_loads "/prompts list" init
           (Some "list") [] Spec.prompts_command
           (d1_directive "query"
              "SELECT name, description, category, tags, updated_at FROM prompts ORDER BY category, name")
           init "[1]" eq_refl eq_refl eq_refl eq_refl eq_refl eq_refl).
Defined.

Lemma travel_custom_known_component_witness :
  Str.startswith directive_prefix
    (_travel_custom_init ["spa"; "Flights"] init).1 = true.
Proof.
  apply (proj2 (travel_custom_known_component ["spa"; "Flights"] init
                  ltac:(discriminate))).
  exists "Flights". split; [right; left|reflexivity].
Defined.

Lemma table_row_description_witness :
  Spec.shown_description "What to pack" = "What to pack".
Proof.
  apply (proj1 (proj2 (table_row_description PNone
                         [("description", PStr "What to pack")] "What to pack"
                         eq_refl))).
  vm_compute. lia.
Defined.

Lemma parse_text_results_records_witness :
  _parse_text_results "no table here" = [].
Proof.
  exact (proj1 (parse_text_results_records "no table here") eq_refl).
Defined.

Lemma prompt_rows_not_mappings_witness :
  _format_prompt_result Spec.sample_loads "list" "[1]"
  = Str.cat ["‚ùå Error processing command result: ";
             "'int' object has no attribute 'get'";
             Str.nl; Str.nl; "Raw result: "; "[1]"].
Proof.
  refine (prompt_rows_not_mappings Spec.sample_loads "list" "[1]" (PInt 1) []
            _ eq_refl eq_refl eq_refl _).
  - left.
  - discriminate.
Defined.

Lemma format_prompt_list_text_witness :
  exists body,
    format_prompt_list (PList Spec.sample_prompts)
    = Returned (Str.cat ["# Available Prompts"; Str.nl; Str.nl] +:+ body).
Proof.
  apply format_prompt_list_text; [discriminate|exact sample_prompts_text].
Defined.

Lemma prompts_alias_records_nothing_witness :
  pending_format_requests (execute_command "/p list" init).2 !! "/p list" = None.
Proof.
  rewrite (proj2 (prompts_alias_records_nothing "/p list" init "p" (Some "list") []
                    ltac:(left) eq_refl eq_refl) eq_refl).
  reflexivity.
Defined.

End Witnesses.
